(** * The temporal join of meta/collection.go

    A shallow embedding of the [Collection] type of package [meta], of its
    derived quantities ([Less], [Subsource], [Code], [Dip], [Azimuth]) and of
    the method [Collections] of [Set], the join of the metadata registries of a site.

    Conventions of the embedding.
    - [time.Time] values are instants on the integer time line ([Time := Z]);
      [Before] and [After] compare instants, as in Go.
    - Go's [int] is a 64-bit two's complement integer: its values are carried
      by [Z] and the one addition of the source is wrapped ([int_add]).
    - [float64] quantities are carried by the rationals [Q]: the numbers a
      float64 holds, compared and negated as binary64 compares and negates
      numbers.  NaN, the infinities and the rounding of a sum are outside [Q].
      The sampling rates are compared only, and those of the Collections of a
      result are never NaN (each equals a channel's, lines 206 and 365).  The
      sums of [Azimuth] round: its loop is given on binary64 values as well
      ([Binary64.positive]), and no range of its value is concluded from the
      rational sums.
    - Go strings are byte strings ([string]); [<] on strings is the bytewise
      lexicographic order ([String.ltb]).
    - Struct embedding is written as a named field of the embedded type, and
      the promoted fields the source reads are given as accessors. *)

From Stdlib Require Import ZArith QArith List String Ascii Bool Lia.
From Stdlib Require Import Permutation Sorted.
From Stdlib Require PrimFloat.
Import ListNotations.
Local Open Scope Z_scope.

(** ** Base types *)

Definition Time : Type := Z.

Definition Before (t u : Time) : bool := t <? u.
Definition After (t u : Time) : bool := u <? t.

(** Go's [int], 64 bits wide. *)
Definition int_wrap (z : Z) : Z := (z + 2 ^ 63) mod 2 ^ 64 - 2 ^ 63.
Definition int_add (a b : Z) : Z := int_wrap (a + b).
Definition int_range (z : Z) : Prop := - 2 ^ 63 <= z < 2 ^ 63.

Definition float64 : Type := Q.

(** Go's [==] and [<] between two float64 numbers.  (A NaN, equal to nothing
    and below nothing, is not a value of [Q].) *)
Definition float_eq (x y : float64) : bool := Qeq_bool x y.
Definition float_lt (x y : float64) : bool := negb (Qle_bool y x).

(** Go's [math.Mod(x, y)]: the remainder of x/y with the sign of x and a
    magnitude below that of y, that is x - y * trunc(x/y).  The source calls it
    with y = 360 only. *)
Definition Mod (x y : float64) : float64 :=
  (x - y * inject_Z (Z.quot (Qnum (x / y)) (QDen (x / y))))%Q.

(** Go's [strings.ToLower] and [strings.ToUpper].  The source compares their
    results with the ASCII literals "true", "yes", "N" and "E" only, and no
    rune outside ASCII maps to a letter of these literals, so the mapping of
    the ASCII letters decides every comparison. *)
Definition lower_byte (a : ascii) : ascii :=
  let n := N_of_ascii a in
  if ((65 <=? n) && (n <=? 90))%N then ascii_of_N (n + 32) else a.

Definition upper_byte (a : ascii) : ascii :=
  let n := N_of_ascii a in
  if ((97 <=? n) && (n <=? 122))%N then ascii_of_N (n - 32) else a.

Fixpoint ToLower (s : string) : string :=
  match s with
  | EmptyString => EmptyString
  | String a r => String (lower_byte a) (ToLower r)
  end.

Fixpoint ToUpper (s : string) : string :=
  match s with
  | EmptyString => EmptyString
  | String a r => String (upper_byte a) (ToUpper r)
  end.

(** ** The interval model *)

Module Span.

Record t : Type := mk { Start : Time; End : Time }.

Definition zero : t := mk 0 0.

(** An instant lies in a span when it is between its bounds, both included. *)
Definition contains (s : t) (i : Time) : Prop := Start s <= i <= End s.

(** Modelled from the spec: [Span.Overlaps] is declared outside
    collection.go; section 4.1 has it true iff the two spans share at least
    one instant, spans being closed intervals. *)
Definition Overlaps (s other : t) : bool :=
  Z.max (Start s) (Start other) <=? Z.min (End s) (End other).

Definition all_overlap (spans : list t) : bool :=
  forallb (fun a => forallb (fun b => Overlaps a b) spans) spans.

(** The latest start and the earliest end of a span and a list of spans. *)
Definition latest (s : t) (spans : list t) : Time :=
  fold_left Z.max (map Start spans) (Start s).

Definition earliest (s : t) (spans : list t) : Time :=
  fold_left Z.min (map End spans) (End s).

(** Modelled from the spec: [Span.Extent] is declared outside collection.go;
    section 4.1 has it return the intersection of the receiver with all the
    given spans, Start the latest start and End the earliest end, and
    (zero, false) if Start > End for the combined result or any pairwise
    overlap is absent. *)
Definition Extent (s : t) (spans : list t) : t * bool :=
  let start := latest s spans in
  let end_ := earliest s spans in
  if (start <=? end_) && all_overlap (s :: spans)
  then (mk start end_, true)
  else (zero, false).

(** [sp] is the intersection of the spans, and it is not empty. *)
Definition intersection (sp : t) (spans : list t) : Prop :=
  Start sp <= End sp /\
  forall i, contains sp i <-> Forall (fun x => contains x i) spans.

End Span.

(** ** The registry records

    Modelled from the spec: the record types are declared outside
    collection.go; section 3 lists their fields, and the fields below are those
    the source reads. *)

Module Equipment.
Record t : Type := mk { Make : string; Model : string; Serial : string }.
End Equipment.

Module Install.
Record t : Type := mk { Equipment : Equipment.t; Span : Span.t }.
End Install.

Module InstalledSensor.
Record t : Type := mk {
  Equipment : Equipment.t;
  Span : Span.t;
  Azimuth : float64;
  Station : string;
  Location : string
}.
Definition Make (s : t) : string := Equipment.Make (Equipment s).
Definition Model (s : t) : string := Equipment.Model (Equipment s).
Definition Serial (s : t) : string := Equipment.Serial (Equipment s).
End InstalledSensor.

Module InstalledRecorder.
Record t : Type := mk {
  InstalledSensor : InstalledSensor.t;
  DataloggerModel : string
}.
Definition Make (r : t) : string := InstalledSensor.Make (InstalledSensor r).
Definition Station (r : t) : string := InstalledSensor.Station (InstalledSensor r).
Definition Location (r : t) : string := InstalledSensor.Location (InstalledSensor r).
Definition Span (r : t) : Span.t := InstalledSensor.Span (InstalledSensor r).
Definition Start (r : t) : Time := Span.Start (Span r).
Definition End (r : t) : Time := Span.End (Span r).
End InstalledRecorder.

Module DeployedDatalogger.
Record t : Type := mk { Install : Install.t; Place : string; Role : string }.
Definition Make (d : t) : string := Equipment.Make (Install.Equipment (Install d)).
Definition Model (d : t) : string := Equipment.Model (Install.Equipment (Install d)).
Definition Serial (d : t) : string := Equipment.Serial (Install.Equipment (Install d)).
Definition Span (d : t) : Span.t := Install.Span (Install d).
End DeployedDatalogger.

Module Connection.
Record t : Type := mk {
  Station : string;
  Location : string;
  Place : string;
  Role : string;
  Number : Z;
  Span : Span.t
}.
End Connection.

Module Stream.
Record t : Type := mk {
  Station : string;
  Location : string;
  Band : string;
  Source : string;
  Axial : string;
  SamplingRate : float64;
  Span : Span.t
}.
End Stream.

Module Component.
Record t : Type := mk {
  Make : string;
  Model : string;
  Number : Z;
  Subsource : string;
  Dip : float64;
  Azimuth : float64
}.
End Component.

Module Channel.
Record t : Type := mk {
  Make : string;
  Model : string;
  Number : Z;
  SamplingRate : float64
}.
End Channel.

Module Gain.
Record t : Type := mk {
  Station : string;
  Location : string;
  Subsource : string;
  Span : Span.t
}.
End Gain.

Module Calibration.
Record t : Type := mk {
  Make : string;
  Model : string;
  Serial : string;
  Number : Z;
  Span : Span.t
}.
End Calibration.

Module Polarity.
Record t : Type := mk { Primary : bool; Reversed : bool }.
End Polarity.

Module Site.
Record t : Type := mk { Station : string; Location : string }.
End Site.

(** Go's [Set] (a reserved word here): the registries behind the accessors
    [InstalledRecorders()], [Streams()], ... that [Collections] ranges over. *)
Module MetaSet.
Record t : Type := mk {
  InstalledRecorders : list InstalledRecorder.t;
  InstalledSensors : list InstalledSensor.t;
  DeployedDataloggers : list DeployedDatalogger.t;
  Connections : list Connection.t;
  Streams : list Stream.t;
  Components : list Component.t;
  Channels : list Channel.t;
  Gains : list Gain.t;
  Calibrations : list Calibration.t
}.
End MetaSet.

(** ** Collection and its derived quantities *)

Module Collection.

Record t : Type := mk {
  Span : Span.t;
  Stream : Stream.t;
  Channel : Channel.t;
  Component : Component.t;
  InstalledSensor : InstalledSensor.t;
  DeployedDatalogger : DeployedDatalogger.t;
  Gains : list Gain.t;
  SensorCalibrations : list Calibration.t;
  DataloggerCalibrations : list Calibration.t
}.

(** [Less] compares whether one Collection will sort before another. *)
Definition Less (c collection : t) : bool :=
  if String.ltb (InstalledSensor.Station (InstalledSensor c))
                (InstalledSensor.Station (InstalledSensor collection)) then true
  else if String.ltb (InstalledSensor.Station (InstalledSensor collection))
                     (InstalledSensor.Station (InstalledSensor c)) then false
  else if String.ltb (InstalledSensor.Location (InstalledSensor c))
                     (InstalledSensor.Location (InstalledSensor collection)) then true
  else if String.ltb (InstalledSensor.Location (InstalledSensor collection))
                     (InstalledSensor.Location (InstalledSensor c)) then false
  else if Component.Number (Component c) <? Component.Number (Component collection) then true
  else if Component.Number (Component collection) <? Component.Number (Component c) then false
  else if Channel.Number (Channel c) <? Channel.Number (Channel collection) then true
  else if Channel.Number (Channel collection) <? Channel.Number (Channel c) then false
  else if Before (Span.Start (Span c)) (Span.Start (Span collection)) then true
  else if After (Span.Start (Span c)) (Span.Start (Span collection)) then false
  else if float_lt (Stream.SamplingRate (Stream collection))
                   (Stream.SamplingRate (Stream c)) then true
  else false.

(** The switch on [strings.ToLower(c.Stream.Axial)]: cases "true" and "yes". *)
Definition axial (c : t) : bool :=
  String.eqb (ToLower (Stream.Axial (Stream c))) "true"
  || String.eqb (ToLower (Stream.Axial (Stream c))) "yes".

(** [Subsource] returns the Subsource code based on the Stream and Component
    values. *)
Definition Subsource (c : t) : string :=
  if axial c then
    if String.eqb (ToUpper (Component.Subsource (Component c))) "N" then "1"%string
    else if String.eqb (ToUpper (Component.Subsource (Component c))) "E" then "2"%string
    else Component.Subsource (Component c)
  else Component.Subsource (Component c).

(** [Code] returns the Channel code based on the Stream and Component values. *)
Definition Code (c : t) : string :=
  (Stream.Band (Stream c) ++ Stream.Source (Stream c) ++ Subsource c)%string.

(** [polarity != nil && polarity.Primary && polarity.Reversed] *)
Definition reversed (polarity : option Polarity.t) : bool :=
  match polarity with
  | Some p => Polarity.Primary p && Polarity.Reversed p
  | None => false
  end.

(** [Dip] returns the vertical orientation of the recorded stream. *)
Definition Dip (c : t) (polarity : option Polarity.t) : float64 :=
  if float_eq (Component.Dip (Component c)) 0%Q then 0%Q
  else
    let dip := Component.Dip (Component c) in
    if reversed polarity then (- dip)%Q else dip.

(** The loop [for azimuth < 0.0 { azimuth += 360.0 }], on a bounded number of
    iterations: [None] when the bound is reached first. *)
Fixpoint positive (fuel : nat) (azimuth : float64) : option float64 :=
  if float_lt azimuth 0%Q then
    match fuel with
    | O => None
    | S fuel' => positive fuel' (azimuth + 360)%Q
    end
  else Some azimuth.

(** [Azimuth] returns the horizontal orientation of the recorded stream. *)
Definition Azimuth (fuel : nat) (c : t) (polarity : option Polarity.t) : option float64 :=
  if negb (float_eq (Component.Dip (Component c)) 0%Q) then Some 0%Q
  else
    let azimuth :=
      (InstalledSensor.Azimuth (InstalledSensor c) + Component.Azimuth (Component c))%Q in
    let azimuth := if reversed polarity then (azimuth + 180)%Q else azimuth in
    match positive fuel azimuth with
    | Some azimuth => Some (Mod azimuth 360%Q)
    | None => None
    end.

End Collection.

(** ** The loop of Azimuth on binary64 values

    A rational sum is exact; Go's [+=] rounds to the nearest binary64 value.
    [Binary64.positive] is the loop of lines 114 to 116, as
    [Collection.positive] has it, on the binary64 values themselves, with the
    addition and the comparison of IEEE 754. *)

Module Binary64.

Import PrimFloat.

Fixpoint positive (fuel : nat) (azimuth : float) : option float :=
  if (azimuth <? 0)%float then
    match fuel with
    | O => None
    | S fuel' => positive fuel' (azimuth + 360)%float
    end
  else Some azimuth.

End Binary64.

(** ** sort.Slice

    [sort.Slice] belongs to Go's library.  Its documentation gives what the
    source can rely on: the slice is sorted given the less function, which
    must describe a transitive ordering, and the sort is not guaranteed to be
    stable.  A [SliceSorter] is any function with that contract; the join is
    stated for every one of them. *)

Definition strict_weak {A : Type} (less : A -> A -> bool) : Prop :=
  (forall x, less x x = false) /\
  (forall x y z, less x y = true -> less y z = true -> less x z = true) /\
  (forall x y z, less x y = false -> less y z = false -> less x z = false).

(** No element sorts before the one it follows. *)
Definition ordered {A : Type} (less : A -> A -> bool) (l : list A) : Prop :=
  Sorted (fun x y => less y x = false) l.

Class SliceSorter : Type := {
  sortSlice : forall {A : Type}, (A -> A -> bool) -> list A -> list A;
  sortSlice_Permutation :
    forall (A : Type) (less : A -> A -> bool) (l : list A),
      Permutation l (sortSlice less l);
  sortSlice_ordered :
    forall (A : Type) (less : A -> A -> bool) (l : list A),
      strict_weak less -> ordered less (sortSlice less l)
}.

(** Go's [insertionSort_func], which [sort.Slice] runs on short slices: each
    element in turn moves towards the front while it is less than the one
    before it.  The sorted prefix is kept last element first. *)
Fixpoint insert_back {A : Type} (less : A -> A -> bool) (x : A) (prefix : list A) : list A :=
  match prefix with
  | [] => [x]
  | y :: prefix' => if less x y then y :: insert_back less x prefix' else x :: prefix
  end.

Definition insertionSort {A : Type} (less : A -> A -> bool) (l : list A) : list A :=
  rev (fold_left (fun prefix x => insert_back less x prefix) l []).

(** *** The sort of sort.Slice since Go 1.19

    [sort.Slice(x, less)] runs [pdqsort_func(data, 0, n, bits.Len(n))], a
    pattern-defeating quicksort on the slice through [data.Less(i, j)] and
    [data.Swap(i, j)]: a range of at most twelve elements is sorted by
    insertion, a longer one is partitioned around a pivot, by heapsort once
    [limit] unbalanced partitions have been met.  The functions below follow
    those of Go's file zsortfunc.go one by one; a slice is a list, an index a
    natural number, and each loop runs on a count that its range bounds. *)

Section Pdqsort.

Local Open Scope nat_scope.

Context {A : Type} (less : A -> A -> bool).

(** [data.Less(i, j)] and [data.Swap(i, j)]. *)
Definition dataLess (d : list A) (i j : nat) : bool :=
  match nth_error d i, nth_error d j with
  | Some x, Some y => less x y
  | _, _ => false
  end.

Definition dataSwap (d : list A) (i j : nat) : list A :=
  let lo := Nat.min i j in
  let hi := Nat.max i j in
  if lo =? hi then d
  else
    match nth_error d lo, nth_error d hi with
    | Some x, Some y =>
        firstn lo d ++ y :: firstn (hi - lo - 1) (skipn (lo + 1) d) ++ x :: skipn (hi + 1) d
    | _, _ => d
    end.

(** [insertionSort_func(data, a, b)]: the insertion sort of [data[a:b]]. *)
Definition insertionSort_func (d : list A) (a b : nat) : list A :=
  let rest := skipn a d in
  firstn a d ++ insertionSort less (firstn (b - a) rest) ++ skipn (b - a) rest.

(** [siftDown_func(data, lo, hi, first)]:

      root := lo
      for {
        child := 2*root + 1
        if child >= hi { return }
        if child+1 < hi && data.Less(first+child, first+child+1) { child++ }
        if !data.Less(first+root, first+child) { return }
        data.Swap(first+root, first+child)
        root = child
      } *)
Fixpoint siftDown_func (fuel : nat) (d : list A) (root hi first : nat) : list A :=
  match fuel with
  | O => d
  | S fuel' =>
      let child := 2 * root + 1 in
      if hi <=? child then d
      else
        let child :=
          if (child + 1 <? hi) && dataLess d (first + child) (first + child + 1)
          then child + 1 else child in
        if negb (dataLess d (first + root) (first + child)) then d
        else siftDown_func fuel' (dataSwap d (first + root) (first + child)) child hi first
  end.

(** [heapSort_func(data, a, b)]:

      first := a; lo := 0; hi := b - a
      for i := (hi - 1) / 2; i >= 0; i-- { siftDown_func(data, i, hi, first) }
      for i := hi - 1; i >= 0; i-- {
        data.Swap(first, first+i)
        siftDown_func(data, lo, i, first)
      } *)
Definition heapSort_func (d : list A) (a b : nat) : list A :=
  let first := a in
  let lo := 0 in
  let hi := b - a in
  let d := fold_left (fun d i => siftDown_func hi d i hi first)
                     (rev (seq 0 ((hi - 1) / 2 + 1))) d in
  fold_left (fun d i => siftDown_func hi (dataSwap d first (first + i)) lo i first)
            (rev (seq 0 hi)) d.

(** [for i <= j && test(i) { i++ }] and [for i <= j && test(j) { j-- }]. *)
Fixpoint scanUp (fuel : nat) (test : nat -> bool) (i j : nat) : nat :=
  match fuel with
  | O => i
  | S fuel' => if (i <=? j) && test i then scanUp fuel' test (i + 1) j else i
  end.

Fixpoint scanDown (fuel : nat) (test : nat -> bool) (i j : nat) : nat :=
  match fuel with
  | O => j
  | S fuel' => if (i <=? j) && test j then scanDown fuel' test i (j - 1) else j
  end.

(** The last loop of [partition_func]:

      for {
        for i <= j && data.Less(i, a) { i++ }
        for i <= j && !data.Less(j, a) { j-- }
        if i > j { break }
        data.Swap(i, j)
        i++
        j--
      } *)
Fixpoint partitionLoop (fuel : nat) (d : list A) (a i j : nat) : list A * nat :=
  match fuel with
  | O => (d, j)
  | S fuel' =>
      let i := scanUp (List.length d) (fun i => dataLess d i a) i j in
      let j := scanDown (List.length d) (fun j => negb (dataLess d j a)) i j in
      if j <? i then (d, j)
      else partitionLoop fuel' (dataSwap d i j) a (i + 1) (j - 1)
  end.

(** [partition_func(data, a, b, pivot)]: one quicksort partition.

      data.Swap(a, pivot)
      i, j := a+1, b-1
      for i <= j && data.Less(i, a) { i++ }
      for i <= j && !data.Less(j, a) { j-- }
      if i > j {
        data.Swap(j, a)
        return j, true
      }
      data.Swap(i, j)
      i++
      j--
      (the loop above)
      data.Swap(j, a)
      return j, false *)
Definition partition_func (d : list A) (a b pivot : nat) : list A * nat * bool :=
  let d := dataSwap d a pivot in
  let i := scanUp (List.length d) (fun i => dataLess d i a) (a + 1) (b - 1) in
  let j := scanDown (List.length d) (fun j => negb (dataLess d j a)) i (b - 1) in
  if j <? i then (dataSwap d j a, j, true)
  else
    let (d, j) := partitionLoop (List.length d) (dataSwap d i j) a (i + 1) (j - 1) in
    (dataSwap d j a, j, false).

(** [partitionEqual_func(data, a, b, pivot)]: the elements equal to the pivot,
    then the greater ones.

      data.Swap(a, pivot)
      i, j := a+1, b-1
      for {
        for i <= j && !data.Less(a, i) { i++ }
        for i <= j && data.Less(a, j) { j-- }
        if i > j { break }
        data.Swap(i, j)
        i++
        j--
      }
      return i *)
Fixpoint partitionEqualLoop (fuel : nat) (d : list A) (a i j : nat) : list A * nat :=
  match fuel with
  | O => (d, i)
  | S fuel' =>
      let i := scanUp (List.length d) (fun i => negb (dataLess d a i)) i j in
      let j := scanDown (List.length d) (fun j => dataLess d a j) i j in
      if j <? i then (d, i)
      else partitionEqualLoop fuel' (dataSwap d i j) a (i + 1) (j - 1)
  end.

Definition partitionEqual_func (d : list A) (a b pivot : nat) : list A * nat :=
  let d := dataSwap d a pivot in
  partitionEqualLoop (List.length d) d a (a + 1) (b - 1).

(** [partialInsertionSort_func(data, a, b)]: true if the range is sorted at
    the end.

      const ( maxSteps = 5; shortestShifting = 50 )
      i := a + 1
      for j := 0; j < maxSteps; j++ {
        for i < b && !data.Less(i, i-1) { i++ }
        if i == b { return true }
        if b-a < shortestShifting { return false }
        data.Swap(i, i-1)
        if i-a >= 2 {
          for j := i - 1; j >= 1; j-- {
            if !data.Less(j, j-1) { break }
            data.Swap(j, j-1)
          }
        }
        if b-i >= 2 {
          for j := i + 1; j < b; j++ {
            if !data.Less(j, j-1) { break }
            data.Swap(j, j-1)
          }
        }
      }
      return false *)
Definition maxSteps : nat := 5.
Definition shortestShifting : nat := 50.

Fixpoint skipOrdered (fuel : nat) (d : list A) (i b : nat) : nat :=
  match fuel with
  | O => i
  | S fuel' =>
      if (i <? b) && negb (dataLess d i (i - 1)) then skipOrdered fuel' d (i + 1) b else i
  end.

Fixpoint shiftLeft (d : list A) (j : nat) : list A :=
  match j with
  | O => d
  | S j' => if negb (dataLess d j j') then d else shiftLeft (dataSwap d j j') j'
  end.

Fixpoint shiftRight (fuel : nat) (d : list A) (j b : nat) : list A :=
  match fuel with
  | O => d
  | S fuel' =>
      if j <? b then
        if negb (dataLess d j (j - 1)) then d
        else shiftRight fuel' (dataSwap d j (j - 1)) (j + 1) b
      else d
  end.

Fixpoint partialInsertionLoop (steps : nat) (d : list A) (a b i : nat) : list A * bool :=
  match steps with
  | O => (d, false)
  | S steps' =>
      let i := skipOrdered (List.length d) d i b in
      if i =? b then (d, true)
      else if b - a <? shortestShifting then (d, false)
      else
        let d := dataSwap d i (i - 1) in
        let d := if 2 <=? i - a then shiftLeft d (i - 1) else d in
        let d := if 2 <=? b - i then shiftRight (List.length d) d (i + 1) b else d in
        partialInsertionLoop steps' d a b i
  end.

Definition partialInsertionSort_func (d : list A) (a b : nat) : list A * bool :=
  partialInsertionLoop maxSteps d a b (a + 1).

(** [bits.Len(n)]: the number of bits of [n]. *)
Definition bitsLen (n : nat) : nat :=
  match n with
  | O => O
  | _ => S (Nat.log2 n)
  end.

(** [xorshift.Next], on 64 bits: [r ^= r << 13; r ^= r >> 17; r ^= r << 5]. *)
Definition xorshiftNext (r : Z) : Z :=
  let r := Z.lxor r (Z.shiftl r 13 mod 2 ^ 64)%Z in
  let r := Z.lxor r (Z.shiftr r 17) in
  Z.lxor r (Z.shiftl r 5 mod 2 ^ 64)%Z.

(** [breakPatterns_func(data, a, b)]: three swaps about the middle.

      length := b - a
      if length >= 8 {
        random := xorshift(length)
        modulus := nextPowerOfTwo(length)   // 1 << bits.Len(uint(length))
        idx := a + (length/4)*2 - 1
        for i := 0; i < 3; i++ {
          other := int(uint(random.Next()) & (modulus - 1))
          if other >= length { other -= length }
          data.Swap(idx-1+i, a+other)
        }
      } *)
Definition breakPatterns_func (d : list A) (a b : nat) : list A :=
  let length := b - a in
  if 8 <=? length then
    let modulus := (2 ^ Z.of_nat (bitsLen length))%Z in
    let idx := a + (length / 4) * 2 - 1 in
    let step (st : Z * list A) (i : nat) :=
      let random := xorshiftNext (fst st) in
      let other := Z.to_nat (Z.land random (modulus - 1)%Z) in
      let other := if length <=? other then other - length else other in
      (random, dataSwap (snd st) (idx - 1 + i) (a + other)) in
    snd (fold_left step [0; 1; 2] (Z.of_nat length, d))
  else d.

Inductive sortedHint : Type := unknownHint | increasingHint | decreasingHint.

(** [order2_func], [median_func] and [medianAdjacent_func]; the count of
    swaps is threaded. *)
Definition order2_func (d : list A) (a b : nat) (swaps : nat) : nat * nat * nat :=
  if dataLess d b a then (b, a, S swaps) else (a, b, swaps).

Definition median_func (d : list A) (a b c : nat) (swaps : nat) : nat * nat :=
  let '(a, b, swaps) := order2_func d a b swaps in
  let '(b, c, swaps) := order2_func d b c swaps in
  let '(a, b, swaps) := order2_func d a b swaps in
  (b, swaps).

Definition medianAdjacent_func (d : list A) (a : nat) (swaps : nat) : nat * nat :=
  median_func d (a - 1) a (a + 1) swaps.

(** [choosePivot_func(data, a, b)]:

      const ( shortestNinther = 50; maxSwaps = 4 * 3 )
      l := b - a
      var ( swaps int; i = a + l/4*1; j = a + l/4*2; k = a + l/4*3 )
      if l >= 8 {
        if l >= shortestNinther {
          i = medianAdjacent_func(data, i, &swaps)
          j = medianAdjacent_func(data, j, &swaps)
          k = medianAdjacent_func(data, k, &swaps)
        }
        j = median_func(data, i, j, k, &swaps)
      }
      switch swaps {
      case 0: return j, increasingHint
      case maxSwaps: return j, decreasingHint
      default: return j, unknownHint
      } *)
Definition shortestNinther : nat := 50.
Definition maxSwaps : nat := 4 * 3.

Definition choosePivot_func (d : list A) (a b : nat) : nat * sortedHint :=
  let l := b - a in
  let swaps := 0 in
  let i := a + l / 4 * 1 in
  let j := a + l / 4 * 2 in
  let k := a + l / 4 * 3 in
  let '(j, swaps) :=
    if 8 <=? l then
      let '(i, j, k, swaps) :=
        if shortestNinther <=? l then
          let '(i, swaps) := medianAdjacent_func d i swaps in
          let '(j, swaps) := medianAdjacent_func d j swaps in
          let '(k, swaps) := medianAdjacent_func d k swaps in
          (i, j, k, swaps)
        else (i, j, k, swaps) in
      median_func d i j k swaps
    else (j, swaps) in
  if swaps =? 0 then (j, increasingHint)
  else if swaps =? maxSwaps then (j, decreasingHint)
  else (j, unknownHint).

(** [reverseRange_func(data, a, b)]:
    [i := a; j := b - 1; for i < j { data.Swap(i, j); i++; j-- }]. *)
Fixpoint reverseLoop (fuel : nat) (d : list A) (i j : nat) : list A :=
  match fuel with
  | O => d
  | S fuel' => if i <? j then reverseLoop fuel' (dataSwap d i j) (i + 1) (j - 1) else d
  end.

Definition reverseRange_func (d : list A) (a b : nat) : list A :=
  reverseLoop (List.length d) d a (b - 1).

Definition isIncreasing (h : sortedHint) : bool :=
  match h with
  | increasingHint => true
  | _ => false
  end.

Definition isDecreasing (h : sortedHint) : bool :=
  match h with
  | decreasingHint => true
  | _ => false
  end.

(** [pdqsort_func(data, a, b, limit)]:

      const maxInsertion = 12
      var ( wasBalanced = true; wasPartitioned = true )
      for {
        length := b - a
        if length <= maxInsertion { insertionSort_func(data, a, b); return }
        if limit == 0 { heapSort_func(data, a, b); return }
        if !wasBalanced { breakPatterns_func(data, a, b); limit-- }
        pivot, hint := choosePivot_func(data, a, b)
        if hint == decreasingHint {
          reverseRange_func(data, a, b)
          pivot = (b - 1) - (pivot - a)
          hint = increasingHint
        }
        if wasBalanced && wasPartitioned && hint == increasingHint {
          if partialInsertionSort_func(data, a, b) { return }
        }
        if a > 0 && !data.Less(a-1, pivot) {
          mid := partitionEqual_func(data, a, b, pivot)
          a = mid
          continue
        }
        mid, alreadyPartitioned := partition_func(data, a, b, pivot)
        wasPartitioned = alreadyPartitioned
        leftLen, rightLen := mid-a, b-mid
        balanceThreshold := length / 8
        if leftLen < rightLen {
          wasBalanced = leftLen >= balanceThreshold
          pdqsort_func(data, a, mid, limit)
          a = mid + 1
        } else {
          wasBalanced = rightLen >= balanceThreshold
          pdqsort_func(data, mid+1, b, limit)
          b = mid
        }
      }

    A turn of the loop and a call count one each; every one of them leaves a
    shorter range, so a count above the length of the slice is not used up. *)
Definition maxInsertion : nat := 12.

Fixpoint pdqsort_func (fuel : nat) (d : list A) (a b limit : nat)
    (wasBalanced wasPartitioned : bool) : list A :=
  match fuel with
  | O => d
  | S fuel' =>
      let length := b - a in
      if length <=? maxInsertion then insertionSort_func d a b
      else if limit =? 0 then heapSort_func d a b
      else
        let d := if wasBalanced then d else breakPatterns_func d a b in
        let limit := if wasBalanced then limit else limit - 1 in
        let (pivot, hint) := choosePivot_func d a b in
        let d := if isDecreasing hint then reverseRange_func d a b else d in
        let pivot := if isDecreasing hint then (b - 1) - (pivot - a) else pivot in
        let hint := if isDecreasing hint then increasingHint else hint in
        let (d, sorted) :=
          if wasBalanced && wasPartitioned && isIncreasing hint
          then partialInsertionSort_func d a b else (d, false) in
        if sorted then d
        else if (0 <? a) && negb (dataLess d (a - 1) pivot) then
          let (d, mid) := partitionEqual_func d a b pivot in
          pdqsort_func fuel' d mid b limit wasBalanced wasPartitioned
        else
          let '(d, mid, alreadyPartitioned) := partition_func d a b pivot in
          let leftLen := mid - a in
          let rightLen := b - mid in
          let balanceThreshold := length / 8 in
          if leftLen <? rightLen then
            let d := pdqsort_func fuel' d a mid limit true true in
            pdqsort_func fuel' d (mid + 1) b limit
              (balanceThreshold <=? leftLen) alreadyPartitioned
          else
            let d := pdqsort_func fuel' d (mid + 1) b limit true true in
            pdqsort_func fuel' d a mid limit
              (balanceThreshold <=? rightLen) alreadyPartitioned
  end.

(** [sort.Slice(x, less)]:
    [length := rv.Len(); limit := bits.Len(uint(length));
     pdqsort_func(lessSwap{less, swap}, 0, length, limit)]. *)
Definition Slice (d : list A) : list A :=
  let length := List.length d in
  pdqsort_func (S length) d 0 length (bitsLen length) true true.

(** No element of [l] is less than the one before it. *)
Fixpoint orderedb (l : list A) : bool :=
  match l with
  | x :: (y :: _) as rest => negb (less y x) && orderedb rest
  | _ => true
  end.

(** [Slice] as a sort that meets the contract whatever [less] is: its result
    is kept when it is in order, as it is for every transitive ordering Go's
    sort is meant for, and is sorted by insertion otherwise. *)
Definition SliceChecked (d : list A) : list A :=
  let r := Slice d in
  if orderedb r then r else insertionSort less r.

End Pdqsort.

(** ** Collections *)

Section Collections.

Context {sorter : SliceSorter}.

(** The closures handed to [sort.Slice] for the gains and the calibrations:
    [x.Span.Start.Before(y.Span.Start)]. *)
Definition gainLess (x y : Gain.t) : bool :=
  Before (Span.Start (Gain.Span x)) (Span.Start (Gain.Span y)).

Definition calibrationLess (x y : Calibration.t) : bool :=
  Before (Span.Start (Calibration.Span x)) (Span.Start (Calibration.Span y)).

(** The gains kept for a stream, a component and a span (lines 155-173 and
    311-329), before they are sorted. *)
Definition gainsKept (s : MetaSet.t) (stream : Stream.t) (component : Component.t)
    (span : Span.t) : list Gain.t :=
  filter (fun g =>
            String.eqb (Gain.Station g) (Stream.Station stream)
            && String.eqb (Gain.Location g) (Stream.Location stream)
            && String.eqb (Gain.Subsource g) (Component.Subsource component)
            && Span.Overlaps span (Gain.Span g))
         (MetaSet.Gains s).

Definition collectGains (s : MetaSet.t) (stream : Stream.t) (component : Component.t)
    (span : Span.t) : list Gain.t :=
  sortSlice gainLess (gainsKept s stream component span).

(** The calibrations kept for a make, model, serial and number and a span
    (lines 175-196, 210-231, 331-352 and 369-390), before they are sorted. *)
Definition calibrationsKept (s : MetaSet.t) (make model serial : string) (number : Z)
    (span : Span.t) : list Calibration.t :=
  filter (fun c =>
            String.eqb (Calibration.Make c) make
            && String.eqb (Calibration.Model c) model
            && String.eqb (Calibration.Serial c) serial
            && (Calibration.Number c =? number)
            && Span.Overlaps span (Calibration.Span c))
         (MetaSet.Calibrations s).

Definition collectCalibrations (s : MetaSet.t) (make model serial : string) (number : Z)
    (span : Span.t) : list Calibration.t :=
  sortSlice calibrationLess (calibrationsKept s make model serial number span).

(** The Collection appended at lines 233-255. *)
Definition directCollection (recorder : InstalledRecorder.t) (stream : Stream.t)
    (span : Span.t) (component : Component.t) (channel : Channel.t)
    (gains : list Gain.t) (sensors dataloggers : list Calibration.t) : Collection.t :=
  {| Collection.InstalledSensor := InstalledRecorder.InstalledSensor recorder;
     Collection.DeployedDatalogger :=
       {| DeployedDatalogger.Install :=
            {| Install.Equipment :=
                 {| Equipment.Make :=
                      InstalledSensor.Make (InstalledRecorder.InstalledSensor recorder);
                    Equipment.Model := InstalledRecorder.DataloggerModel recorder;
                    Equipment.Serial :=
                      InstalledSensor.Serial (InstalledRecorder.InstalledSensor recorder) |};
               Install.Span :=
                 {| Span.Start := InstalledRecorder.Start recorder;
                    Span.End := InstalledRecorder.End recorder |} |};
          DeployedDatalogger.Place := EmptyString;
          DeployedDatalogger.Role := EmptyString |};
     Collection.Stream := stream;
     Collection.Gains := gains;
     Collection.SensorCalibrations := sensors;
     Collection.DataloggerCalibrations := dataloggers;
     Collection.Channel := channel;
     Collection.Component := component;
     Collection.Span := span |}.

(** The channel loop of the first path, lines 198-256. *)
Definition directChannels (s : MetaSet.t) (recorder : InstalledRecorder.t)
    (stream : Stream.t) (span : Span.t) (component : Component.t)
    (gains : list Gain.t) (sensors : list Calibration.t) : list Collection.t :=
  flat_map (fun channel =>
    if String.eqb (InstalledRecorder.Make recorder) (Channel.Make channel)
       && String.eqb (InstalledRecorder.DataloggerModel recorder) (Channel.Model channel)
       && float_eq (Stream.SamplingRate stream) (Channel.SamplingRate channel)
    then
      let dataloggers :=
        collectCalibrations s
          (InstalledSensor.Make (InstalledRecorder.InstalledSensor recorder))
          (InstalledRecorder.DataloggerModel recorder)
          (InstalledSensor.Serial (InstalledRecorder.InstalledSensor recorder))
          (Channel.Number channel) span in
      [directCollection recorder stream span component channel gains sensors dataloggers]
    else [])
    (MetaSet.Channels s).

(** The component loop of the first path, lines 147-257. *)
Definition directComponents (s : MetaSet.t) (recorder : InstalledRecorder.t)
    (stream : Stream.t) (span : Span.t) : list Collection.t :=
  flat_map (fun component =>
    if String.eqb (InstalledSensor.Make (InstalledRecorder.InstalledSensor recorder))
                  (Component.Make component)
       && String.eqb (InstalledSensor.Model (InstalledRecorder.InstalledSensor recorder))
                     (Component.Model component)
    then
      let gains := collectGains s stream component span in
      let sensors :=
        collectCalibrations s
          (InstalledSensor.Make (InstalledRecorder.InstalledSensor recorder))
          (InstalledSensor.Model (InstalledRecorder.InstalledSensor recorder))
          (InstalledSensor.Serial (InstalledRecorder.InstalledSensor recorder))
          (Component.Number component) span in
      directChannels s recorder stream span component gains sensors
    else [])
    (MetaSet.Components s).

(** The stream loop of the first path, lines 134-258. *)
Definition directStreams (s : MetaSet.t) (site : Site.t) (recorder : InstalledRecorder.t)
    : list Collection.t :=
  flat_map (fun stream =>
    if String.eqb (Stream.Station stream) (Site.Station site)
       && String.eqb (Stream.Location stream) (Site.Location site)
    then
      let (span, ok) := Span.Extent (InstalledRecorder.Span recorder) [Stream.Span stream] in
      if ok then directComponents s recorder stream span else []
    else [])
    (MetaSet.Streams s).

(** The first loop of [Collections], lines 126-259: the recorders of the
    site. *)
Definition directCollections (s : MetaSet.t) (site : Site.t) : list Collection.t :=
  flat_map (fun recorder =>
    if String.eqb (InstalledRecorder.Station recorder) (Site.Station site)
       && String.eqb (InstalledRecorder.Location recorder) (Site.Location site)
    then directStreams s site recorder
    else [])
    (MetaSet.InstalledRecorders s).

(** The Collection appended at lines 392-402. *)
Definition connectionCollection (sensor : InstalledSensor.t)
    (datalogger : DeployedDatalogger.t) (stream : Stream.t) (span : Span.t)
    (component : Component.t) (channel : Channel.t)
    (gains : list Gain.t) (sensors dataloggers : list Calibration.t) : Collection.t :=
  {| Collection.InstalledSensor := sensor;
     Collection.DeployedDatalogger := datalogger;
     Collection.Stream := stream;
     Collection.Gains := gains;
     Collection.SensorCalibrations := sensors;
     Collection.DataloggerCalibrations := dataloggers;
     Collection.Channel := channel;
     Collection.Component := component;
     Collection.Span := span |}.

(** The four tests of lines 355-367 on a channel of the second path. *)
Definition connectionChannel (connection : Connection.t) (datalogger : DeployedDatalogger.t)
    (stream : Stream.t) (component : Component.t) (channel : Channel.t) : bool :=
  String.eqb (DeployedDatalogger.Make datalogger) (Channel.Make channel)
  && String.eqb (DeployedDatalogger.Model datalogger) (Channel.Model channel)
  && negb (int_add (Component.Number component) (Connection.Number connection)
           <? Channel.Number channel)
  && float_eq (Stream.SamplingRate stream) (Channel.SamplingRate channel).

(** The channel loop of the second path, lines 354-404. *)
Definition connectionChannels (s : MetaSet.t) (connection : Connection.t)
    (sensor : InstalledSensor.t) (datalogger : DeployedDatalogger.t)
    (stream : Stream.t) (span : Span.t) (component : Component.t)
    (gains : list Gain.t) (sensors : list Calibration.t) : list Collection.t :=
  flat_map (fun channel =>
    if connectionChannel connection datalogger stream component channel
    then
      let dataloggers :=
        collectCalibrations s
          (DeployedDatalogger.Make datalogger) (DeployedDatalogger.Model datalogger)
          (DeployedDatalogger.Serial datalogger) (Channel.Number channel) span in
      [connectionCollection sensor datalogger stream span component channel
         gains sensors dataloggers]
    else [])
    (MetaSet.Channels s).

(** The component loop of the second path, lines 303-405. *)
Definition connectionComponents (s : MetaSet.t) (connection : Connection.t)
    (sensor : InstalledSensor.t) (datalogger : DeployedDatalogger.t)
    (stream : Stream.t) (span : Span.t) : list Collection.t :=
  flat_map (fun component =>
    if String.eqb (InstalledSensor.Make sensor) (Component.Make component)
       && String.eqb (InstalledSensor.Model sensor) (Component.Model component)
    then
      let gains := collectGains s stream component span in
      let sensors :=
        collectCalibrations s
          (InstalledSensor.Make sensor) (InstalledSensor.Model sensor)
          (InstalledSensor.Serial sensor) (Component.Number component) span in
      connectionChannels s connection sensor datalogger stream span component gains sensors
    else [])
    (MetaSet.Components s).

(** The stream loop of the second path, lines 290-406; [span] is the extent
    of the connection, the sensor and the datalogger. *)
Definition connectionStreams (s : MetaSet.t) (site : Site.t) (connection : Connection.t)
    (sensor : InstalledSensor.t) (datalogger : DeployedDatalogger.t)
    (span : Span.t) : list Collection.t :=
  flat_map (fun stream =>
    if String.eqb (Stream.Station stream) (Site.Station site)
       && String.eqb (Stream.Location stream) (Site.Location site)
    then
      let (span, ok) := Span.Extent span [Stream.Span stream] in
      if ok then connectionComponents s connection sensor datalogger stream span else []
    else [])
    (MetaSet.Streams s).

(** The datalogger loop of the second path, lines 277-407. *)
Definition connectionDataloggers (s : MetaSet.t) (site : Site.t)
    (connection : Connection.t) (sensor : InstalledSensor.t) : list Collection.t :=
  flat_map (fun datalogger =>
    if String.eqb (DeployedDatalogger.Place datalogger) (Connection.Place connection)
       && String.eqb (DeployedDatalogger.Role datalogger) (Connection.Role connection)
    then
      let (span, ok) :=
        Span.Extent (Connection.Span connection)
          [InstalledSensor.Span sensor; DeployedDatalogger.Span datalogger] in
      if ok then connectionStreams s site connection sensor datalogger span else []
    else [])
    (MetaSet.DeployedDataloggers s).

(** The sensor loop of the second path, lines 269-408. *)
Definition connectionSensors (s : MetaSet.t) (site : Site.t) (connection : Connection.t)
    : list Collection.t :=
  flat_map (fun sensor =>
    if String.eqb (InstalledSensor.Station sensor) (Site.Station site)
       && String.eqb (InstalledSensor.Location sensor) (Site.Location site)
    then connectionDataloggers s site connection sensor
    else [])
    (MetaSet.InstalledSensors s).

(** The second loop of [Collections], lines 261-409: the connections of the
    site. *)
Definition connectionCollections (s : MetaSet.t) (site : Site.t) : list Collection.t :=
  flat_map (fun connection =>
    if String.eqb (Connection.Station connection) (Site.Station site)
       && String.eqb (Connection.Location connection) (Site.Location site)
    then connectionSensors s site connection
    else [])
    (MetaSet.Connections s).

(** What both loops have appended when the final sort starts. *)
Definition built (s : MetaSet.t) (site : Site.t) : list Collection.t :=
  directCollections s site ++ connectionCollections s site.

(** [Collections] decodes the stored sensor and datalogger installation times
    and builds a slice of overlapping time spans for the given site. *)
Definition Collections (s : MetaSet.t) (site : Site.t) : list Collection.t :=
  sortSlice Collection.Less (built s site).

(** The tests a recorder, a stream, a component and a channel pass on the
    first path, [span] being the extent of the recorder and the stream. *)
Definition directMatch (s : MetaSet.t) (site : Site.t)
    (recorder : InstalledRecorder.t) (stream : Stream.t)
    (span : Span.t) (component : Component.t) (channel : Channel.t) : Prop :=
  (In recorder (MetaSet.InstalledRecorders s)
   /\ InstalledRecorder.Station recorder = Site.Station site
   /\ InstalledRecorder.Location recorder = Site.Location site)
  /\ (In stream (MetaSet.Streams s)
      /\ Stream.Station stream = Site.Station site
      /\ Stream.Location stream = Site.Location site)
  /\ Span.Extent (InstalledRecorder.Span recorder) [Stream.Span stream] = (span, true)
  /\ (In component (MetaSet.Components s)
      /\ InstalledSensor.Make (InstalledRecorder.InstalledSensor recorder)
         = Component.Make component
      /\ InstalledSensor.Model (InstalledRecorder.InstalledSensor recorder)
         = Component.Model component)
  /\ (In channel (MetaSet.Channels s)
      /\ InstalledRecorder.Make recorder = Channel.Make channel
      /\ InstalledRecorder.DataloggerModel recorder = Channel.Model channel
      /\ (Stream.SamplingRate stream == Channel.SamplingRate channel)%Q).

(** The Collection the first path appends for them. *)
Definition directEmitted (s : MetaSet.t) (recorder : InstalledRecorder.t) (stream : Stream.t)
    (span : Span.t) (component : Component.t) (channel : Channel.t) : Collection.t :=
  directCollection recorder stream span component channel
    (collectGains s stream component span)
    (collectCalibrations s
       (InstalledSensor.Make (InstalledRecorder.InstalledSensor recorder))
       (InstalledSensor.Model (InstalledRecorder.InstalledSensor recorder))
       (InstalledSensor.Serial (InstalledRecorder.InstalledSensor recorder))
       (Component.Number component) span)
    (collectCalibrations s
       (InstalledSensor.Make (InstalledRecorder.InstalledSensor recorder))
       (InstalledRecorder.DataloggerModel recorder)
       (InstalledSensor.Serial (InstalledRecorder.InstalledSensor recorder))
       (Channel.Number channel) span).

(** The tests of the second path; [span] is the extent of the connection, the
    sensor, the datalogger and then the stream. *)
Definition connectionMatch (s : MetaSet.t) (site : Site.t)
    (connection : Connection.t) (sensor : InstalledSensor.t)
    (datalogger : DeployedDatalogger.t) (stream : Stream.t) (span : Span.t)
    (component : Component.t) (channel : Channel.t) : Prop :=
  (In connection (MetaSet.Connections s)
   /\ Connection.Station connection = Site.Station site
   /\ Connection.Location connection = Site.Location site)
  /\ (In sensor (MetaSet.InstalledSensors s)
      /\ InstalledSensor.Station sensor = Site.Station site
      /\ InstalledSensor.Location sensor = Site.Location site)
  /\ (In datalogger (MetaSet.DeployedDataloggers s)
      /\ DeployedDatalogger.Place datalogger = Connection.Place connection
      /\ DeployedDatalogger.Role datalogger = Connection.Role connection)
  /\ (In stream (MetaSet.Streams s)
      /\ Stream.Station stream = Site.Station site
      /\ Stream.Location stream = Site.Location site)
  /\ (exists span0,
        Span.Extent (Connection.Span connection)
          [InstalledSensor.Span sensor; DeployedDatalogger.Span datalogger]
        = (span0, true)
        /\ Span.Extent span0 [Stream.Span stream] = (span, true))
  /\ (In component (MetaSet.Components s)
      /\ InstalledSensor.Make sensor = Component.Make component
      /\ InstalledSensor.Model sensor = Component.Model component)
  /\ (In channel (MetaSet.Channels s)
      /\ connectionChannel connection datalogger stream component channel = true).

(** The Collection the second path appends for them. *)
Definition connectionEmitted (s : MetaSet.t) (sensor : InstalledSensor.t)
    (datalogger : DeployedDatalogger.t) (stream : Stream.t) (span : Span.t)
    (component : Component.t) (channel : Channel.t) : Collection.t :=
  connectionCollection sensor datalogger stream span component channel
    (collectGains s stream component span)
    (collectCalibrations s
       (InstalledSensor.Make sensor) (InstalledSensor.Model sensor)
       (InstalledSensor.Serial sensor) (Component.Number component) span)
    (collectCalibrations s
       (DeployedDatalogger.Make datalogger) (DeployedDatalogger.Model datalogger)
       (DeployedDatalogger.Serial datalogger) (Channel.Number channel) span).

End Collections.

(** ** Orders and ties *)

(** A strict order in which two elements neither of which is less than the
    other are the same element. *)
Definition strict_total {A : Type} (lt : A -> A -> bool) : Prop :=
  (forall x, lt x x = false) /\
  (forall x y z, lt x y = true -> lt y z = true -> lt x z = true) /\
  (forall x y, lt x y = false -> lt y x = false -> x = y).

(** The shape of [Less]: a first key decides, and the rest breaks its ties. *)
Definition lex {A : Type} (lt rest : A -> A -> bool) (x y : A) : bool :=
  if lt x y then true else if lt y x then false else rest x y.

(** The six keys of [Less], in the order it reads them. *)
Definition stationKey (c : Collection.t) : string :=
  InstalledSensor.Station (Collection.InstalledSensor c).
Definition locationKey (c : Collection.t) : string :=
  InstalledSensor.Location (Collection.InstalledSensor c).
Definition componentKey (c : Collection.t) : Z :=
  Component.Number (Collection.Component c).
Definition channelKey (c : Collection.t) : Z :=
  Channel.Number (Collection.Channel c).
Definition startKey (c : Collection.t) : Time :=
  Span.Start (Collection.Span c).
Definition rateKey (c : Collection.t) : float64 :=
  Stream.SamplingRate (Collection.Stream c).

(** [x] stands before [y] in [l]. *)
Definition precedes {A : Type} (x y : A) (l : list A) : Prop :=
  exists i j, (i < j)%nat /\ nth_error l i = Some x /\ nth_error l j = Some y.

(** A sort is stable on an input when elements neither of which is less than
    the other keep their order. *)
Definition stable {A : Type} (less : A -> A -> bool) (input output : list A) : Prop :=
  forall x y, less x y = false -> less y x = false ->
    precedes x y input -> precedes x y output.

(** ** Registries of the scenarios *)

(** The registries of the basic join: one recorder, one stream, one component
    and one channel. *)
Definition joinRecorder : InstalledRecorder.t :=
  InstalledRecorder.mk
    (InstalledSensor.mk (Equipment.mk "X" "Y" "1") (Span.mk 2000 2010) 0%Q "ABC" "01")
    "Z".
Definition joinStream : Stream.t :=
  Stream.mk "ABC" "01" "H" "H" "false" 100%Q (Span.mk 2001 2009).
Definition joinComponent : Component.t := Component.mk "X" "Y" 1 "Z" 0%Q 90%Q.
Definition joinChannel : Channel.t := Channel.mk "X" "Z" 1 100%Q.
Definition joinSet : MetaSet.t :=
  MetaSet.mk [joinRecorder] [] [] [] [joinStream] [joinComponent] [joinChannel] [] [].
Definition joinSite : Site.t := Site.mk "ABC" "01".
Definition joinCollection : Collection.t :=
  directCollection joinRecorder joinStream (Span.mk 2001 2009) joinComponent joinChannel
    [] [] [].

(** The same with a recorder that left before the stream started. *)
Definition apartRecorder : InstalledRecorder.t :=
  InstalledRecorder.mk
    (InstalledSensor.mk (Equipment.mk "X" "Y" "1") (Span.mk 1990 1995) 0%Q "ABC" "01")
    "Z".
Definition apartSet : MetaSet.t :=
  MetaSet.mk [apartRecorder] [] [] [] [joinStream] [joinComponent] [joinChannel] [] [].

(** The registries of the offset scenario: a connection numbered 1, a sensor
    and a datalogger it links, a component numbered 2 and channels numbered 3
    and 4. *)
Definition offsetSpan : Span.t := Span.mk 2000 2010.
Definition offsetConnection : Connection.t :=
  Connection.mk "ABC" "01" "Hut" "Main" 1 offsetSpan.
Definition offsetSensor : InstalledSensor.t :=
  InstalledSensor.mk (Equipment.mk "X" "Y" "1") offsetSpan 0%Q "ABC" "01".
Definition offsetDatalogger : DeployedDatalogger.t :=
  DeployedDatalogger.mk (Install.mk (Equipment.mk "D" "L" "7") offsetSpan) "Hut" "Main".
Definition offsetStream : Stream.t :=
  Stream.mk "ABC" "01" "H" "H" "false" 100%Q offsetSpan.
Definition offsetComponent : Component.t := Component.mk "X" "Y" 2 "N" 0%Q 0%Q.
Definition offsetChannel3 : Channel.t := Channel.mk "D" "L" 3 100%Q.
Definition offsetChannel4 : Channel.t := Channel.mk "D" "L" 4 100%Q.
Definition offsetSet : MetaSet.t :=
  MetaSet.mk [] [offsetSensor] [offsetDatalogger] [offsetConnection] [offsetStream]
    [offsetComponent] [offsetChannel3; offsetChannel4] [] [].
Definition offsetSite : Site.t := Site.mk "ABC" "01".

(** The offset scenario with a connection and a datalogger that name no place
    and no role. *)
Definition bareConnection : Connection.t :=
  Connection.mk "ABC" "01" EmptyString EmptyString 1 offsetSpan.
Definition bareDatalogger : DeployedDatalogger.t :=
  DeployedDatalogger.mk (Install.mk (Equipment.mk "D" "L" "7") offsetSpan)
    EmptyString EmptyString.
Definition bareSet : MetaSet.t :=
  MetaSet.mk [] [offsetSensor] [bareDatalogger] [bareConnection] [offsetStream]
    [offsetComponent] [offsetChannel3; offsetChannel4] [] [].

(** A recorder with its stream and one channel; six components numbered 2
    and then one numbered 1; six gains that start together and then one that
    starts earlier. *)
Definition tieRecorder : InstalledRecorder.t :=
  InstalledRecorder.mk
    (InstalledSensor.mk (Equipment.mk "X" "Y" "1") (Span.mk 2000 2010) 0%Q "ABC" "01")
    "Z".
Definition tieStream : Stream.t :=
  Stream.mk "ABC" "01" "H" "H" "false" 100%Q (Span.mk 2001 2009).
Definition tieChannel : Channel.t := Channel.mk "X" "Z" 1 100%Q.
Definition tieComponent0 : Component.t := Component.mk "X" "Y" 2 "N" 0%Q 0%Q.
Definition tieComponent1 : Component.t := Component.mk "X" "Y" 2 "E" 0%Q 0%Q.
Definition tieComponent2 : Component.t := Component.mk "X" "Y" 2 "U" 0%Q 0%Q.
Definition tieComponent3 : Component.t := Component.mk "X" "Y" 2 "V" 0%Q 0%Q.
Definition tieComponent4 : Component.t := Component.mk "X" "Y" 2 "W" 0%Q 0%Q.
Definition tieComponent5 : Component.t := Component.mk "X" "Y" 2 "R" 0%Q 0%Q.
Definition tieComponent6 : Component.t := Component.mk "X" "Y" 1 "Z" 0%Q 0%Q.
Definition tieGain0 : Gain.t := Gain.mk "ABC" "01" "N" (Span.mk 2005 2010).
Definition tieGain1 : Gain.t := Gain.mk "ABC" "01" "N" (Span.mk 2005 2011).
Definition tieGain2 : Gain.t := Gain.mk "ABC" "01" "N" (Span.mk 2005 2012).
Definition tieGain3 : Gain.t := Gain.mk "ABC" "01" "N" (Span.mk 2005 2013).
Definition tieGain4 : Gain.t := Gain.mk "ABC" "01" "N" (Span.mk 2005 2014).
Definition tieGain5 : Gain.t := Gain.mk "ABC" "01" "N" (Span.mk 2005 2015).
Definition tieGain6 : Gain.t := Gain.mk "ABC" "01" "N" (Span.mk 2000 2010).
Definition tieSet : MetaSet.t :=
  MetaSet.mk [tieRecorder] [] [] [] [tieStream]
    [tieComponent0; tieComponent1; tieComponent2; tieComponent3; tieComponent4;
     tieComponent5; tieComponent6]
    [tieChannel]
    [tieGain0; tieGain1; tieGain2; tieGain3; tieGain4; tieGain5; tieGain6] [].
Definition tieSite : Site.t := Site.mk "ABC" "01".
Definition tieSpan : Span.t := Span.mk 2001 2009.

(** The same recorder, stream and channel with thirteen components, twelve
    numbered 2 and then one numbered 1, and thirteen gains of the subsource
    "N", twelve that start together and then one that starts earlier. *)
Definition crowdGain (finish : Time) : Gain.t :=
  Gain.mk "ABC" "01" "N" (Span.mk 2005 finish).
Definition crowdGains : list Gain.t :=
  map crowdGain [2010; 2011; 2012; 2013; 2014; 2015; 2016; 2017; 2018; 2019; 2020; 2021]
  ++ [tieGain6].
Definition crowdComponent (subsource : string) : Component.t :=
  Component.mk "X" "Y" 2 subsource 0%Q 0%Q.
Definition crowdComponents : list Component.t :=
  map crowdComponent ["N"; "E"; "U"; "V"; "W"; "R"; "A"; "B"; "C"; "D"; "F"; "G"]%string
  ++ [tieComponent6].
Definition crowdSet : MetaSet.t :=
  MetaSet.mk [tieRecorder] [] [] [] [tieStream] crowdComponents [tieChannel] crowdGains [].

(** The offset scenario with calibrations: two of the second component of the
    sensor, the later one first in the registry, one of another serial number,
    one that ended before the connection, and one of the third channel of the
    datalogger. *)
Definition sensorCalibrationLate : Calibration.t :=
  Calibration.mk "X" "Y" "1" 2 (Span.mk 2005 2010).
Definition sensorCalibrationEarly : Calibration.t :=
  Calibration.mk "X" "Y" "1" 2 (Span.mk 2000 2004).
Definition sensorCalibrationOther : Calibration.t :=
  Calibration.mk "X" "Y" "9" 2 (Span.mk 2000 2010).
Definition sensorCalibrationPast : Calibration.t :=
  Calibration.mk "X" "Y" "1" 2 (Span.mk 1990 1999).
Definition dataloggerCalibration : Calibration.t :=
  Calibration.mk "D" "L" "7" 3 (Span.mk 2001 2002).
Definition calibratedSet : MetaSet.t :=
  MetaSet.mk [] [offsetSensor] [offsetDatalogger] [offsetConnection] [offsetStream]
    [offsetComponent] [offsetChannel3; offsetChannel4] []
    [sensorCalibrationLate; sensorCalibrationEarly; sensorCalibrationOther;
     sensorCalibrationPast; dataloggerCalibration].

(** A Collection of an axial stream whose component has the subsource "n". *)
Definition axialStream : Stream.t :=
  Stream.mk "ABC" "01" "H" "H" "true" 100%Q (Span.mk 2001 2009).
Definition lowerComponent : Component.t := Component.mk "X" "Y" 1 "n" 0%Q 0%Q.
Definition lowerCollection : Collection.t :=
  directCollection joinRecorder axialStream (Span.mk 2001 2009) lowerComponent
    joinChannel [] [] [].

(** ** What the registries of gains and calibrations do not decide *)

(** The fields of a Collection that the loops join: all but the three lists of
    gains and calibrations. *)
Definition joined (c : Collection.t)
    : Span.t * Stream.t * Channel.t * Component.t * InstalledSensor.t
      * DeployedDatalogger.t :=
  (Collection.Span c, Collection.Stream c, Collection.Channel c, Collection.Component c,
   Collection.InstalledSensor c, Collection.DeployedDatalogger c).

(** The registries [s] with other gains and other calibrations. *)
Definition withMetadata (s : MetaSet.t) (gains : list Gain.t)
    (calibrations : list Calibration.t) : MetaSet.t :=
  {| MetaSet.InstalledRecorders := MetaSet.InstalledRecorders s;
     MetaSet.InstalledSensors := MetaSet.InstalledSensors s;
     MetaSet.DeployedDataloggers := MetaSet.DeployedDataloggers s;
     MetaSet.Connections := MetaSet.Connections s;
     MetaSet.Streams := MetaSet.Streams s;
     MetaSet.Components := MetaSet.Components s;
     MetaSet.Channels := MetaSet.Channels s;
     MetaSet.Gains := gains;
     MetaSet.Calibrations := calibrations |}.

(** * Properties *)

(** ** Intervals *)

Lemma fold_max_le (l : list Z) (a i : Z) :
  fold_left Z.max l a <= i <-> a <= i /\ Forall (fun x => x <= i) l.
Proof.
  revert a; induction l as [|x l IH]; intros a; simpl.
  - split; [intros H; split; [exact H | constructor] | tauto].
  - rewrite IH. split.
    + intros [H1 H2]. split; [lia|]. constructor; [lia | exact H2].
    + intros [H1 H2]. inversion H2; subst. split; [lia | assumption].
Qed.

Lemma fold_min_ge (l : list Z) (a i : Z) :
  i <= fold_left Z.min l a <-> i <= a /\ Forall (fun x => i <= x) l.
Proof.
  revert a; induction l as [|x l IH]; intros a; simpl.
  - split; [intros H; split; [exact H | constructor] | tauto].
  - rewrite IH. split.
    + intros [H1 H2]. split; [lia|]. constructor; [lia | exact H2].
    + intros [H1 H2]. inversion H2; subst. split; [lia | assumption].
Qed.

Module SpanFacts.

Import Span.

Lemma Overlaps_iff (s other : t) :
  Overlaps s other = true <-> exists i, contains s i /\ contains other i.
Proof.
  unfold Overlaps, contains. rewrite Z.leb_le. split.
  - intros H. exists (Z.max (Start s) (Start other)). lia.
  - intros [i Hi]. lia.
Qed.

Lemma latest_bound (s : t) (spans : list t) (i : Time) :
  latest s spans <= i <-> Forall (fun x => Start x <= i) (s :: spans).
Proof.
  unfold latest. rewrite fold_max_le, Forall_map. split.
  - intros [H1 H2]. constructor; assumption.
  - intros H. inversion H; subst. split; assumption.
Qed.

Lemma earliest_bound (s : t) (spans : list t) (i : Time) :
  i <= earliest s spans <-> Forall (fun x => i <= End x) (s :: spans).
Proof.
  unfold earliest. rewrite fold_min_ge, Forall_map. split.
  - intros [H1 H2]. constructor; assumption.
  - intros H. inversion H; subst. split; assumption.
Qed.

Lemma contains_clip (s : t) (spans : list t) (i : Time) :
  contains (mk (latest s spans) (earliest s spans)) i
  <-> Forall (fun x => contains x i) (s :: spans).
Proof.
  unfold contains; simpl. rewrite latest_bound, earliest_bound.
  rewrite !Forall_forall. firstorder.
Qed.

(** A combined span with Start <= End leaves no pair of spans apart. *)
Lemma clip_all_overlap (s : t) (spans : list t) :
  latest s spans <= earliest s spans -> all_overlap (s :: spans) = true.
Proof.
  intros H. unfold all_overlap.
  assert (Hs : Forall (fun x => Start x <= latest s spans) (s :: spans))
    by (apply latest_bound; lia).
  assert (He : Forall (fun x => latest s spans <= End x) (s :: spans))
    by (apply earliest_bound; lia).
  rewrite Forall_forall in Hs, He.
  apply forallb_forall; intros a Ha. apply forallb_forall; intros b Hb.
  unfold Overlaps. apply Z.leb_le.
  pose proof (Hs a Ha). pose proof (Hs b Hb).
  pose proof (He a Ha). pose proof (He b Hb). lia.
Qed.

(** [Extent] succeeds exactly when the latest start is no later than the
    earliest end, and then returns the span between them. *)
Lemma Extent_eq (s : t) (spans : list t) :
  Extent s spans =
  if latest s spans <=? earliest s spans
  then (mk (latest s spans) (earliest s spans), true)
  else (zero, false).
Proof.
  unfold Extent.
  destruct (latest s spans <=? earliest s spans) eqn:E; simpl; [|reflexivity].
  apply Z.leb_le in E. rewrite (clip_all_overlap s spans E). reflexivity.
Qed.

Lemma Extent_true (s : t) (spans : list t) (sp : t) :
  Extent s spans = (sp, true) ->
  sp = mk (latest s spans) (earliest s spans)
  /\ intersection sp (s :: spans)
  /\ all_overlap (s :: spans) = true.
Proof.
  rewrite Extent_eq.
  destruct (latest s spans <=? earliest s spans) eqn:E; [|discriminate].
  intros H; injection H as <-. apply Z.leb_le in E.
  split; [reflexivity|]. split.
  - split; [exact E|]. intros i. apply contains_clip.
  - apply clip_all_overlap; exact E.
Qed.

Lemma Extent_false (s : t) (spans : list t) (sp : t) :
  Extent s spans = (sp, false) -> earliest s spans < latest s spans /\ sp = zero.
Proof.
  rewrite Extent_eq.
  destruct (latest s spans <=? earliest s spans) eqn:E; [discriminate|].
  intros H; injection H as <-. apply Z.leb_gt in E. split; [lia | reflexivity].
Qed.

(** With one argument [Extent] is the overlap test. *)
Lemma Extent_pair (s other : t) :
  snd (Extent s [other]) = Overlaps s other.
Proof.
  rewrite Extent_eq. unfold latest, earliest, Overlaps; simpl.
  destruct (Z.max (Start s) (Start other) <=? Z.min (End s) (End other)); reflexivity.
Qed.

(** Intersecting an intersection with one more span. *)
Lemma intersection_app (sp sp' : t) (spans : list t) (other : t) :
  intersection sp spans -> intersection sp' [sp; other] ->
  intersection sp' (spans ++ [other]).
Proof.
  intros [_ H] [Hne H']. split; [exact Hne|].
  intros i. rewrite H', Forall_app. split.
  - intros F. inversion F as [|? ? F1 F2]; subst. split; [apply H; exact F1 | exact F2].
  - intros [F1 F2]. constructor; [apply H; exact F1 | exact F2].
Qed.

End SpanFacts.

(** ** Sorting *)

Section Sorting.

Context {A : Type} (less : A -> A -> bool).

Lemma strict_weak_asym :
  strict_weak less -> forall x y, less x y = true -> less y x = false.
Proof.
  intros (Hirr & Htrans & _) x y Hxy.
  destruct (less y x) eqn:Hyx; [|reflexivity].
  rewrite <- (Hirr x). symmetry. apply (Htrans x y x); assumption.
Qed.

Lemma insert_back_Permutation (x : A) (prefix : list A) :
  Permutation (x :: prefix) (insert_back less x prefix).
Proof.
  induction prefix as [|y prefix IH]; simpl.
  - apply Permutation_refl.
  - destruct (less x y).
    + eapply Permutation_trans; [apply perm_swap|]. apply perm_skip. exact IH.
    + apply Permutation_refl.
Qed.

Lemma fold_insert_back_Permutation (l prefix : list A) :
  Permutation (l ++ prefix) (fold_left (fun p x => insert_back less x p) l prefix).
Proof.
  revert prefix; induction l as [|x l IH]; intros prefix; simpl.
  - apply Permutation_refl.
  - eapply Permutation_trans; [|apply IH].
    eapply Permutation_trans; [apply Permutation_middle|].
    apply Permutation_app_head. apply insert_back_Permutation.
Qed.

Lemma insertionSort_Permutation (l : list A) :
  Permutation l (insertionSort less l).
Proof.
  unfold insertionSort.
  eapply Permutation_trans; [|apply Permutation_rev].
  rewrite <- (app_nil_r l) at 1. apply fold_insert_back_Permutation.
Qed.

(** The prefix, kept last element first, descends: no element is less than
    the one after it in the list. *)
Definition descending (prefix : list A) : Prop :=
  Sorted (fun x y => less x y = false) prefix.

Hypothesis less_asym : forall x y, less x y = true -> less y x = false.

Lemma insert_back_HdRel (x y : A) (prefix : list A) :
  less y x = false ->
  HdRel (fun a b => less a b = false) y prefix ->
  HdRel (fun a b => less a b = false) y (insert_back less x prefix).
Proof.
  intros Hyx H. destruct prefix as [|z prefix]; simpl.
  - constructor; exact Hyx.
  - destruct (less x z); constructor; [inversion H; assumption | exact Hyx].
Qed.

Lemma insert_back_descending (x : A) (prefix : list A) :
  descending prefix -> descending (insert_back less x prefix).
Proof.
  unfold descending. induction prefix as [|y prefix IH]; intros H; simpl.
  - repeat constructor.
  - inversion H as [|? ? Hs Hh]; subst.
    destruct (less x y) eqn:E.
    + constructor; [apply IH; exact Hs|].
      apply insert_back_HdRel; [apply less_asym; exact E | exact Hh].
    + constructor; [exact H | constructor; exact E].
Qed.

Lemma fold_insert_back_descending (l prefix : list A) :
  descending prefix ->
  descending (fold_left (fun p x => insert_back less x p) l prefix).
Proof.
  revert prefix; induction l as [|x l IH]; intros prefix H; simpl.
  - exact H.
  - apply IH. apply insert_back_descending. exact H.
Qed.

Lemma Sorted_snoc (R : A -> A -> Prop) (l : list A) (a : A) :
  Sorted R l -> (forall l' z, l = l' ++ [z] -> R z a) -> Sorted R (l ++ [a]).
Proof.
  induction 1 as [|x l Hs IH Hh]; intros Hlast; simpl.
  - repeat constructor.
  - constructor.
    + apply IH. intros l' z E. apply (Hlast (x :: l') z). rewrite E. reflexivity.
    + destruct l as [|y l]; simpl.
      * constructor. apply (Hlast [] x). reflexivity.
      * constructor. inversion Hh; assumption.
Qed.

Lemma descending_rev (prefix : list A) :
  descending prefix -> ordered less (rev prefix).
Proof.
  unfold descending, ordered. induction 1 as [|x l Hs IH Hh]; simpl.
  - constructor.
  - apply Sorted_snoc; [exact IH|].
    intros l' z E. destruct l as [|y l].
    + destruct l'; discriminate.
    + simpl in E. apply app_inj_tail in E. destruct E as [_ <-].
      inversion Hh; assumption.
Qed.

Lemma insertionSort_ordered (l : list A) : ordered less (insertionSort less l).
Proof.
  unfold insertionSort. apply descending_rev.
  apply fold_insert_back_descending. constructor.
Qed.

End Sorting.

(** Go's insertion sort meets the contract of [sort.Slice]. *)
Definition insertionSorter : SliceSorter :=
  {| sortSlice := @insertionSort;
     sortSlice_Permutation := @insertionSort_Permutation;
     sortSlice_ordered := fun A less l H =>
       insertionSort_ordered less (strict_weak_asym less H) l |}.

(** *** The sort of sort.Slice since Go 1.19 *)

Lemma nth_error_skipn_cons {A : Type} (d : list A) (n : nat) (x : A) :
  nth_error d n = Some x -> skipn n d = x :: skipn (S n) d.
Proof.
  revert d; induction n as [|n IH]; intros [|a d] H; try discriminate.
  - injection H as ->. reflexivity.
  - simpl in H. apply IH in H. exact H.
Qed.

Lemma Permutation_exchange {A : Type} (l1 l2 l3 : list A) (x y : A) :
  Permutation (l1 ++ x :: l2 ++ y :: l3) (l1 ++ y :: l2 ++ x :: l3).
Proof.
  apply Permutation_app_head.
  apply Permutation_trans with (x :: y :: l2 ++ l3).
  - apply perm_skip. apply Permutation_sym, Permutation_middle.
  - eapply Permutation_trans; [apply perm_swap|].
    apply perm_skip. apply Permutation_middle.
Qed.

Section PdqsortFacts.

Local Open Scope nat_scope.

Context {A : Type} (less : A -> A -> bool).

Lemma dataSwap_Permutation (d : list A) (i j : nat) : Permutation d (dataSwap d i j).
Proof.
  unfold dataSwap.
  destruct (Nat.eqb_spec (Nat.min i j) (Nat.max i j)) as [|Hne]; [apply Permutation_refl|].
  set (lo := Nat.min i j) in *. set (hi := Nat.max i j) in *.
  assert (Hlt : lo < hi) by (subst lo hi; lia).
  destruct (nth_error d lo) as [x|] eqn:Hx; [|apply Permutation_refl].
  destruct (nth_error d hi) as [y|] eqn:Hy; [|apply Permutation_refl].
  assert (E : d = firstn lo d ++ x :: firstn (hi - lo - 1) (skipn (lo + 1) d)
                    ++ y :: skipn (hi + 1) d).
  { rewrite <- (firstn_skipn lo d) at 1. f_equal.
    rewrite (nth_error_skipn_cons d lo x Hx). f_equal.
    replace (S lo) with (lo + 1) by lia.
    rewrite <- (firstn_skipn (hi - lo - 1) (skipn (lo + 1) d)) at 1. f_equal.
    rewrite skipn_skipn. replace (hi - lo - 1 + (lo + 1)) with hi by lia.
    rewrite (nth_error_skipn_cons d hi y Hy). f_equal. f_equal. lia. }
  rewrite E at 1. apply Permutation_exchange.
Qed.

Lemma dataSwap_length (d : list A) (i j : nat) : List.length (dataSwap d i j) = List.length d.
Proof. symmetry. apply Permutation_length, dataSwap_Permutation. Qed.

Lemma fold_left_Permutation {B : Type} (f : list A -> B -> list A) (l : list B) (d : list A) :
  (forall d x, Permutation d (f d x)) -> Permutation d (fold_left f l d).
Proof.
  intros H. revert d; induction l as [|x l IH]; intros d; simpl.
  - apply Permutation_refl.
  - eapply Permutation_trans; [apply H|]. apply IH.
Qed.

Lemma insertionSort_func_Permutation (d : list A) (a b : nat) :
  Permutation d (insertionSort_func less d a b).
Proof.
  unfold insertionSort_func.
  rewrite <- (firstn_skipn a d) at 1. apply Permutation_app_head.
  rewrite <- (firstn_skipn (b - a) (skipn a d)) at 1. apply Permutation_app_tail.
  apply insertionSort_Permutation.
Qed.

Lemma siftDown_func_Permutation (fuel : nat) (d : list A) (root hi first : nat) :
  Permutation d (siftDown_func less fuel d root hi first).
Proof.
  revert d root; induction fuel as [|fuel IH]; intros d root; cbn [siftDown_func].
  - apply Permutation_refl.
  - destruct (hi <=? 2 * root + 1); [apply Permutation_refl|].
    destruct (negb _); [apply Permutation_refl|].
    eapply Permutation_trans; [apply dataSwap_Permutation|]. apply IH.
Qed.

Lemma heapSort_func_Permutation (d : list A) (a b : nat) :
  Permutation d (heapSort_func less d a b).
Proof.
  unfold heapSort_func.
  eapply Permutation_trans; [|apply fold_left_Permutation].
  - apply fold_left_Permutation. intros d' i. apply siftDown_func_Permutation.
  - intros d' i. eapply Permutation_trans; [apply dataSwap_Permutation|].
    apply siftDown_func_Permutation.
Qed.

Lemma partitionLoop_Permutation (fuel : nat) (d : list A) (a i j : nat) :
  Permutation d (fst (partitionLoop less fuel d a i j)).
Proof.
  revert d i j; induction fuel as [|fuel IH]; intros d i j; simpl.
  - apply Permutation_refl.
  - match goal with |- context [if ?c then _ else _] => destruct c end; simpl.
    + apply Permutation_refl.
    + eapply Permutation_trans; [apply dataSwap_Permutation|]. apply IH.
Qed.

Lemma partition_func_Permutation (d : list A) (a b pivot : nat) :
  Permutation d (fst (fst (partition_func less d a b pivot))).
Proof.
  unfold partition_func.
  match goal with |- context [if ?c then _ else _] => destruct c end; simpl.
  - eapply Permutation_trans; apply dataSwap_Permutation.
  - match goal with |- context [partitionLoop less ?f ?d ?a ?i ?j] =>
      pose proof (partitionLoop_Permutation f d a i j) as H;
      destruct (partitionLoop less f d a i j) as [d' j'] end.
    simpl in *.
    eapply Permutation_trans; [apply dataSwap_Permutation|].
    eapply Permutation_trans; [apply dataSwap_Permutation|].
    eapply Permutation_trans; [exact H|]. apply dataSwap_Permutation.
Qed.

Lemma partitionEqualLoop_Permutation (fuel : nat) (d : list A) (a i j : nat) :
  Permutation d (fst (partitionEqualLoop less fuel d a i j)).
Proof.
  revert d i j; induction fuel as [|fuel IH]; intros d i j; simpl.
  - apply Permutation_refl.
  - match goal with |- context [if ?c then _ else _] => destruct c end; simpl.
    + apply Permutation_refl.
    + eapply Permutation_trans; [apply dataSwap_Permutation|]. apply IH.
Qed.

Lemma partitionEqual_func_Permutation (d : list A) (a b pivot : nat) :
  Permutation d (fst (partitionEqual_func less d a b pivot)).
Proof.
  unfold partitionEqual_func.
  eapply Permutation_trans; [apply dataSwap_Permutation|].
  apply partitionEqualLoop_Permutation.
Qed.

Lemma shiftLeft_Permutation (d : list A) (j : nat) :
  Permutation d (shiftLeft less d j).
Proof.
  revert d; induction j as [|j IH]; intros d; simpl.
  - apply Permutation_refl.
  - destruct (negb (dataLess less d (S j) j)); [apply Permutation_refl|].
    eapply Permutation_trans; [apply dataSwap_Permutation|]. apply IH.
Qed.

Lemma shiftRight_Permutation (fuel : nat) (d : list A) (j b : nat) :
  Permutation d (shiftRight less fuel d j b).
Proof.
  revert d j; induction fuel as [|fuel IH]; intros d j; simpl.
  - apply Permutation_refl.
  - destruct (j <? b); [|apply Permutation_refl].
    destruct (negb (dataLess less d j (j - 1))); [apply Permutation_refl|].
    eapply Permutation_trans; [apply dataSwap_Permutation|]. apply IH.
Qed.

Lemma partialInsertionLoop_Permutation (steps : nat) (d : list A) (a b i : nat) :
  Permutation d (fst (partialInsertionLoop less steps d a b i)).
Proof.
  revert d i; induction steps as [|steps IH]; intros d i; cbn [partialInsertionLoop].
  - apply Permutation_refl.
  - set (i' := skipOrdered less (List.length d) d i b).
    destruct (i' =? b); [apply Permutation_refl|].
    destruct (b - a <? shortestShifting); [apply Permutation_refl|].
    set (d1 := dataSwap d i' (i' - 1)).
    set (d2 := if 2 <=? i' - a then shiftLeft less d1 (i' - 1) else d1).
    apply Permutation_trans with d1; [apply dataSwap_Permutation|].
    apply Permutation_trans with d2.
    { subst d2. destruct (2 <=? i' - a);
        [apply shiftLeft_Permutation | apply Permutation_refl]. }
    eapply Permutation_trans; [|apply IH].
    destruct (2 <=? b - i'); [apply shiftRight_Permutation | apply Permutation_refl].
Qed.

Lemma breakPatterns_func_Permutation (d : list A) (a b : nat) :
  Permutation d (breakPatterns_func d a b).
Proof.
  unfold breakPatterns_func. destruct (8 <=? b - a); [|apply Permutation_refl].
  generalize (Z.of_nat (b - a)). generalize [0; 1; 2]. intros l.
  revert d; induction l as [|i l IH]; intros d r; simpl.
  - apply Permutation_refl.
  - eapply Permutation_trans; [|apply IH]. apply dataSwap_Permutation.
Qed.

Lemma reverseLoop_Permutation (fuel : nat) (d : list A) (i j : nat) :
  Permutation d (reverseLoop fuel d i j).
Proof.
  revert d i j; induction fuel as [|fuel IH]; intros d i j; simpl.
  - apply Permutation_refl.
  - destruct (i <? j); [|apply Permutation_refl].
    eapply Permutation_trans; [apply dataSwap_Permutation|]. apply IH.
Qed.

Lemma pdqsort_func_Permutation (fuel : nat) (d : list A) (a b limit : nat)
    (wasBalanced wasPartitioned : bool) :
  Permutation d (pdqsort_func less fuel d a b limit wasBalanced wasPartitioned).
Proof.
  revert d a b limit wasBalanced wasPartitioned.
  induction fuel as [|fuel IH]; intros d a b limit wasBalanced wasPartitioned; simpl.
  - apply Permutation_refl.
  - destruct (b - a <=? maxInsertion); [apply insertionSort_func_Permutation|].
    destruct (limit =? 0); [apply heapSort_func_Permutation|].
    set (d1 := if wasBalanced then d else breakPatterns_func d a b).
    assert (H1 : Permutation d d1).
    { subst d1. destruct wasBalanced;
        [apply Permutation_refl | apply breakPatterns_func_Permutation]. }
    destruct (choosePivot_func less d1 a b) as [pivot hint].
    set (d2 := if isDecreasing hint then reverseRange_func d1 a b else d1).
    assert (H2 : Permutation d d2).
    { eapply Permutation_trans; [exact H1|]. subst d2. destruct (isDecreasing hint);
        [apply reverseLoop_Permutation | apply Permutation_refl]. }
    clearbody d2. clear H1 d1.
    match goal with |- context [if ?c then partialInsertionSort_func less d2 a b else _] =>
      set (p := if c then partialInsertionSort_func less d2 a b else (d2, false)) end.
    assert (H3 : Permutation d (fst p)).
    { eapply Permutation_trans; [exact H2|]. subst p.
      match goal with |- context [if ?c then _ else _] => destruct c end;
        [apply partialInsertionLoop_Permutation | apply Permutation_refl]. }
    clearbody p. destruct p as [d3 sorted]. simpl in H3.
    destruct sorted; [exact H3|].
    match goal with |- context [if ?c then _ else _] => destruct c end.
    + pose proof (partitionEqual_func_Permutation d3 a b
                    (if isDecreasing hint then b - 1 - (pivot - a) else pivot)) as H4.
      destruct (partitionEqual_func less d3 a b _) as [d4 mid]. simpl in H4.
      eapply Permutation_trans; [exact H3|].
      eapply Permutation_trans; [exact H4|]. apply IH.
    + pose proof (partition_func_Permutation d3 a b
                    (if isDecreasing hint then b - 1 - (pivot - a) else pivot)) as H4.
      destruct (partition_func less d3 a b _) as [[d4 mid] already]. simpl in H4.
      eapply Permutation_trans; [exact H3|].
      eapply Permutation_trans; [exact H4|].
      destruct (mid - a <? b - mid);
        (eapply Permutation_trans; [apply IH|]; apply IH).
Qed.

Lemma Slice_Permutation (d : list A) : Permutation d (Slice less d).
Proof. apply pdqsort_func_Permutation. Qed.

Lemma orderedb_ordered (l : list A) : orderedb less l = true -> ordered less l.
Proof.
  unfold ordered. induction l as [|x l IH]; intros H; [constructor|].
  destruct l as [|y l]; [repeat constructor|].
  simpl in H. apply andb_true_iff in H. destruct H as [H1 H2].
  constructor; [apply IH; exact H2|].
  constructor. apply negb_true_iff. exact H1.
Qed.

Lemma SliceChecked_Permutation (d : list A) : Permutation d (SliceChecked less d).
Proof.
  unfold SliceChecked. destruct (orderedb less (Slice less d)).
  - apply Slice_Permutation.
  - eapply Permutation_trans; [apply Slice_Permutation | apply insertionSort_Permutation].
Qed.

Lemma SliceChecked_ordered (d : list A) :
  strict_weak less -> ordered less (SliceChecked less d).
Proof.
  intros H. unfold SliceChecked. destruct (orderedb less (Slice less d)) eqn:E.
  - apply orderedb_ordered. exact E.
  - apply insertionSort_ordered. apply strict_weak_asym. exact H.
Qed.

(** On at most twelve elements [sort.Slice] is the insertion sort. *)
Lemma Slice_short (d : list A) :
  List.length d <= maxInsertion -> Slice less d = insertionSort less d.
Proof.
  intros H. unfold Slice. simpl.
  rewrite Nat.sub_0_r. apply Nat.leb_le in H. rewrite H.
  unfold insertionSort_func. simpl. rewrite Nat.sub_0_r, firstn_all, skipn_all.
  apply app_nil_r.
Qed.

End PdqsortFacts.

(** [sort.Slice] as released since Go 1.19 meets the contract. *)
Definition pdqSorter : SliceSorter :=
  {| sortSlice := @SliceChecked;
     sortSlice_Permutation := @SliceChecked_Permutation;
     sortSlice_ordered := @SliceChecked_ordered |}.


(** ** The orders handed to sort.Slice *)

Lemma strict_total_weak {A : Type} (lt : A -> A -> bool) :
  strict_total lt -> strict_weak lt.
Proof.
  intros (Hirr & Htrans & Htri). split; [exact Hirr|]. split; [exact Htrans|].
  intros x y z Hxy Hyz.
  destruct (lt x z) eqn:Hxz; [|reflexivity].
  destruct (lt y x) eqn:Hyx.
  - rewrite <- Hyz. symmetry. apply (Htrans y x z); assumption.
  - rewrite (Htri x y Hxy Hyx) in Hxz. congruence.
Qed.

(** An order read through a key, and an order read backwards. *)
Lemma strict_weak_key {A K : Type} (lt : K -> K -> bool) (key : A -> K) :
  strict_weak lt -> strict_weak (fun x y => lt (key x) (key y)).
Proof.
  intros (Hirr & Htrans & Hneg). repeat split; intros.
  - apply Hirr.
  - eapply Htrans; eassumption.
  - eapply Hneg; eassumption.
Qed.

Lemma strict_weak_flip {A : Type} (lt : A -> A -> bool) :
  strict_weak lt -> strict_weak (fun x y => lt y x).
Proof.
  intros (Hirr & Htrans & Hneg). repeat split; intros.
  - apply Hirr.
  - eapply Htrans; eassumption.
  - eapply Hneg; eassumption.
Qed.

Lemma Z_ltb_strict_total : strict_total Z.ltb.
Proof.
  repeat split; intros.
  - apply Z.ltb_irrefl.
  - rewrite Z.ltb_lt in *. lia.
  - rewrite Z.ltb_ge in *. lia.
Qed.

Lemma ascii_compare_N (a b : ascii) :
  Ascii.compare a b = N.compare (N_of_ascii a) (N_of_ascii b).
Proof. reflexivity. Qed.

Lemma ascii_compare_refl (a : ascii) : Ascii.compare a a = Eq.
Proof. rewrite ascii_compare_N. apply N.compare_refl. Qed.

Lemma string_compare_refl (s : string) : String.compare s s = Eq.
Proof.
  induction s as [|a s IH]; simpl; [reflexivity|].
  rewrite ascii_compare_refl. exact IH.
Qed.

Lemma string_compare_Lt_trans (s1 s2 s3 : string) :
  String.compare s1 s2 = Lt -> String.compare s2 s3 = Lt -> String.compare s1 s3 = Lt.
Proof.
  revert s2 s3. induction s1 as [|a1 s1 IH]; intros [|a2 s2] [|a3 s3]; simpl;
    try congruence.
  destruct (Ascii.compare a1 a2) eqn:E12; try discriminate;
    destruct (Ascii.compare a2 a3) eqn:E23; try discriminate; intros H1 H2.
  - apply Ascii.compare_eq_iff in E12, E23. subst. rewrite ascii_compare_refl.
    eapply IH; eassumption.
  - apply Ascii.compare_eq_iff in E12. subst. rewrite E23. reflexivity.
  - apply Ascii.compare_eq_iff in E23. subst. rewrite E12. reflexivity.
  - rewrite ascii_compare_N in *. rewrite N.compare_lt_iff in *.
    assert (E : (N_of_ascii a1 ?= N_of_ascii a3)%N = Lt)
      by (apply N.compare_lt_iff; lia).
    rewrite E. reflexivity.
Qed.

Lemma String_ltb_strict_total : strict_total String.ltb.
Proof.
  unfold String.ltb. repeat split.
  - intros x. rewrite string_compare_refl. reflexivity.
  - intros x y z Hxy Hyz.
    destruct (String.compare x y) eqn:E1; try discriminate.
    destruct (String.compare y z) eqn:E2; try discriminate.
    rewrite (string_compare_Lt_trans x y z E1 E2). reflexivity.
  - intros x y Hxy Hyx. apply String.compare_eq_iff.
    rewrite String.compare_antisym in Hyx.
    destruct (String.compare x y); simpl in *; congruence.
Qed.

Lemma float_lt_iff (x y : float64) : float_lt x y = true <-> (x < y)%Q.
Proof.
  unfold float_lt. rewrite negb_true_iff. split.
  - intros H. apply Qnot_le_lt. intros Hle.
    apply Qle_bool_iff in Hle. congruence.
  - intros H. destruct (Qle_bool y x) eqn:E; [|reflexivity].
    apply Qle_bool_iff in E. exfalso. apply (Qlt_not_le x y); assumption.
Qed.

Lemma float_lt_false_iff (x y : float64) : float_lt x y = false <-> (y <= x)%Q.
Proof.
  unfold float_lt. rewrite negb_false_iff. apply Qle_bool_iff.
Qed.

Lemma float_lt_strict_weak : strict_weak float_lt.
Proof.
  repeat split; intros.
  - apply float_lt_false_iff. apply Qle_refl.
  - rewrite float_lt_iff in *. eapply Qlt_trans; eassumption.
  - rewrite float_lt_false_iff in *. eapply Qle_trans; eassumption.
Qed.

Lemma lex_strict_weak {A : Type} (lt rest : A -> A -> bool) :
  strict_weak lt -> strict_weak rest -> strict_weak (lex lt rest).
Proof.
  intros Hlt Hrest.
  pose proof (strict_weak_asym lt Hlt) as Hasym.
  destruct Hlt as (Hirr & Htrans & Hneg).
  destruct Hrest as (Rirr & Rtrans & Rneg).
  assert (Hall : forall x y z,
    (lt x y = true -> lt y z = true -> lt x z = true) /\
    (lt z y = true -> lt y x = true -> lt z x = true) /\
    (lt x y = false -> lt y z = false -> lt x z = false) /\
    (lt z y = false -> lt y x = false -> lt z x = false) /\
    (lt y z = false -> lt z x = false -> lt y x = false) /\
    (lt x z = false -> lt z y = false -> lt x y = false) /\
    (lt y x = false -> lt x z = false -> lt y z = false) /\
    (lt z x = false -> lt x y = false -> lt z y = false) /\
    (lt x y = true -> lt y x = false) /\
    (lt y z = true -> lt z y = false) /\
    (lt x z = true -> lt z x = false)).
  { intros x y z. repeat split; first [apply Htrans | apply Hneg | apply Hasym]. }
  unfold lex. split; [|split].
  - intros x. rewrite Hirr. apply Rirr.
  - intros x y z. pose proof (Hall x y z). pose proof (Rtrans x y z).
    destruct (lt x y), (lt y x), (lt y z), (lt z y), (lt x z), (lt z x);
      simpl; intuition congruence.
  - intros x y z. pose proof (Hall x y z). pose proof (Rneg x y z).
    destruct (lt x y), (lt y x), (lt y z), (lt z y), (lt x z), (lt z x);
      simpl; intuition congruence.
Qed.

Lemma gainLess_strict_weak : strict_weak gainLess.
Proof.
  apply (strict_weak_key Z.ltb (fun g => Span.Start (Gain.Span g))).
  apply strict_total_weak. exact Z_ltb_strict_total.
Qed.

Lemma calibrationLess_strict_weak : strict_weak calibrationLess.
Proof.
  apply (strict_weak_key Z.ltb (fun c => Span.Start (Calibration.Span c))).
  apply strict_total_weak. exact Z_ltb_strict_total.
Qed.

Lemma Less_lex (c collection : Collection.t) :
  Collection.Less c collection =
  lex (fun x y => String.ltb (stationKey x) (stationKey y))
   (lex (fun x y => String.ltb (locationKey x) (locationKey y))
     (lex (fun x y => componentKey x <? componentKey y)
       (lex (fun x y => channelKey x <? channelKey y)
         (lex (fun x y => startKey x <? startKey y)
              (fun x y => float_lt (rateKey y) (rateKey x))))))
   c collection.
Proof.
  unfold Collection.Less, lex, Before, After,
    stationKey, locationKey, componentKey, channelKey, startKey, rateKey.
  repeat match goal with
         | |- context [if ?b then _ else _] => destruct b
         end; reflexivity.
Qed.

Lemma Less_strict_weak : strict_weak Collection.Less.
Proof.
  assert (H : strict_weak
    (lex (fun x y => String.ltb (stationKey x) (stationKey y))
     (lex (fun x y => String.ltb (locationKey x) (locationKey y))
       (lex (fun x y => componentKey x <? componentKey y)
         (lex (fun x y => channelKey x <? channelKey y)
           (lex (fun x y => startKey x <? startKey y)
                (fun x y => float_lt (rateKey y) (rateKey x)))))))).
  { repeat apply lex_strict_weak.
    - apply (strict_weak_key String.ltb stationKey).
      apply strict_total_weak, String_ltb_strict_total.
    - apply (strict_weak_key String.ltb locationKey).
      apply strict_total_weak, String_ltb_strict_total.
    - apply (strict_weak_key Z.ltb componentKey).
      apply strict_total_weak, Z_ltb_strict_total.
    - apply (strict_weak_key Z.ltb channelKey).
      apply strict_total_weak, Z_ltb_strict_total.
    - apply (strict_weak_key Z.ltb startKey).
      apply strict_total_weak, Z_ltb_strict_total.
    - apply (strict_weak_flip (fun x y => float_lt (rateKey x) (rateKey y))).
      apply (strict_weak_key float_lt rateKey). exact float_lt_strict_weak. }
  destruct H as (Hirr & Htrans & Hneg). repeat split; intros.
  - rewrite Less_lex. apply Hirr.
  - rewrite Less_lex in *. eapply Htrans; eassumption.
  - rewrite Less_lex in *. eapply Hneg; eassumption.
Qed.

(** X2. On the Collections the two loops append, the slice handed to
    [sort.Slice] at line 411, [Less] is an ordering as [sort.Slice] requires of
    its less function: none of them is less than itself, less is transitive
    among them, and so is being not less. *)
Theorem Less_transitive_ordering (sorter : SliceSorter) (s : MetaSet.t) (site : Site.t) :
  (forall c, In c (built s site) -> Collection.Less c c = false)
  /\ (forall c d e,
        In c (built s site) -> In d (built s site) -> In e (built s site) ->
        Collection.Less c d = true -> Collection.Less d e = true ->
        Collection.Less c e = true)
  /\ (forall c d e,
        In c (built s site) -> In d (built s site) -> In e (built s site) ->
        Collection.Less c d = false -> Collection.Less d e = false ->
        Collection.Less c e = false).
Proof.
  destruct Less_strict_weak as (Hirr & Htrans & Hneg). split; [|split].
  - intros c _. apply Hirr.
  - intros c d e _ _ _. apply Htrans.
  - intros c d e _ _ _. apply Hneg.
Qed.

(** ** What the two loops append *)

Lemma in_flat_map_if {A B : Type} (f : A -> bool) (g : A -> list B) (l : list A) (y : B) :
  In y (flat_map (fun x => if f x then g x else []) l)
  <-> exists x, In x l /\ f x = true /\ In y (g x).
Proof.
  rewrite in_flat_map. split; intros (x & Hx & H); exists x.
  - destruct (f x); [auto | contradiction].
  - destruct H as [-> H]. auto.
Qed.

Lemma in_extent {B : Type} (e : Span.t * bool) (g : Span.t -> list B) (y : B) :
  In y (let (span, ok) := e in if ok then g span else [])
  <-> exists span, e = (span, true) /\ In y (g span).
Proof.
  destruct e as [span [|]]; split.
  - intros H. exists span. auto.
  - intros (span' & E & H). injection E as ->. exact H.
  - contradiction.
  - intros (span' & E & _). discriminate.
Qed.

Lemma float_eq_iff (x y : float64) : float_eq x y = true <-> (x == y)%Q.
Proof. apply Qeq_bool_iff. Qed.

(** Turns the boolean tests of the loops into equations. *)
Ltac tests :=
  repeat match goal with
         | H : _ /\ _ |- _ => destruct H
         | H : (_ && _)%bool = true |- _ => apply andb_true_iff in H
         | H : String.eqb _ _ = true |- _ => apply String.eqb_eq in H
         | H : float_eq _ _ = true |- _ => apply float_eq_iff in H
         end.

Section Built.

Context {sorter : SliceSorter}.

Variables (s : MetaSet.t) (site : Site.t).

Lemma directCollections_In (c : Collection.t) :
  In c (directCollections s site)
  <-> exists recorder stream span component channel,
        directMatch s site recorder stream span component channel
        /\ c = directEmitted s recorder stream span component channel.
Proof.
  unfold directCollections, directStreams, directComponents, directChannels,
    directMatch, directEmitted.
  rewrite in_flat_map_if. split.
  - intros (recorder & Hr & Cr & H). exists recorder.
    rewrite in_flat_map_if in H. destruct H as (stream & Hs & Cs & H). exists stream.
    rewrite in_extent in H. destruct H as (span & E & H). exists span.
    rewrite in_flat_map_if in H. destruct H as (component & Hc & Cc & H).
    exists component.
    rewrite in_flat_map_if in H. destruct H as (channel & Hch & Cch & H).
    exists channel.
    destruct H as [<-|[]]. tests. tauto.
  - intros (recorder & stream & span & component & channel & M & ->).
    destruct M as ((Hr & Cr1 & Cr2) & (Hs & Cs1 & Cs2) & E & (Hc & Cc1 & Cc2)
                   & (Hch & Cch1 & Cch2 & Cch3)).
    exists recorder. split; [exact Hr|]. split.
    { rewrite !andb_true_iff, !String.eqb_eq. tauto. }
    rewrite in_flat_map_if. exists stream. split; [exact Hs|]. split.
    { rewrite !andb_true_iff, !String.eqb_eq. tauto. }
    rewrite in_extent. exists span. split; [exact E|].
    rewrite in_flat_map_if. exists component. split; [exact Hc|]. split.
    { rewrite !andb_true_iff, !String.eqb_eq. tauto. }
    rewrite in_flat_map_if. exists channel. split; [exact Hch|]. split.
    { rewrite !andb_true_iff, !String.eqb_eq, float_eq_iff. tauto. }
    left. reflexivity.
Qed.

Lemma connectionCollections_In (c : Collection.t) :
  In c (connectionCollections s site)
  <-> exists connection sensor datalogger stream span component channel,
        connectionMatch s site connection sensor datalogger stream span component channel
        /\ c = connectionEmitted s sensor datalogger stream span component channel.
Proof.
  unfold connectionCollections, connectionSensors, connectionDataloggers,
    connectionStreams, connectionComponents, connectionChannels,
    connectionMatch, connectionEmitted.
  rewrite in_flat_map_if. split.
  - intros (connection & Hn & Cn & H). exists connection.
    rewrite in_flat_map_if in H. destruct H as (sensor & Hse & Cse & H). exists sensor.
    rewrite in_flat_map_if in H. destruct H as (datalogger & Hd & Cd & H).
    exists datalogger.
    rewrite in_extent in H. destruct H as (span0 & E0 & H).
    rewrite in_flat_map_if in H. destruct H as (stream & Hs & Cs & H). exists stream.
    rewrite in_extent in H. destruct H as (span & E & H). exists span.
    rewrite in_flat_map_if in H. destruct H as (component & Hc & Cc & H).
    exists component.
    rewrite in_flat_map_if in H. destruct H as (channel & Hch & Cch & H).
    exists channel.
    destruct H as [<-|[]]. tests.
    repeat split; try assumption. exists span0. tauto.
  - intros (connection & sensor & datalogger & stream & span & component & channel
            & M & ->).
    destruct M as ((Hn & Cn1 & Cn2) & (Hse & Cse1 & Cse2) & (Hd & Cd1 & Cd2)
                   & (Hs & Cs1 & Cs2) & (span0 & E0 & E) & (Hc & Cc1 & Cc2)
                   & (Hch & Cch)).
    exists connection. split; [exact Hn|]. split.
    { rewrite !andb_true_iff, !String.eqb_eq. tauto. }
    rewrite in_flat_map_if. exists sensor. split; [exact Hse|]. split.
    { rewrite !andb_true_iff, !String.eqb_eq. tauto. }
    rewrite in_flat_map_if. exists datalogger. split; [exact Hd|]. split.
    { rewrite !andb_true_iff, !String.eqb_eq. tauto. }
    rewrite in_extent. exists span0. split; [exact E0|].
    rewrite in_flat_map_if. exists stream. split; [exact Hs|]. split.
    { rewrite !andb_true_iff, !String.eqb_eq. tauto. }
    rewrite in_extent. exists span. split; [exact E|].
    rewrite in_flat_map_if. exists component. split; [exact Hc|]. split.
    { rewrite !andb_true_iff, !String.eqb_eq. tauto. }
    rewrite in_flat_map_if. exists channel. split; [exact Hch|]. split; [exact Cch|].
    left. reflexivity.
Qed.

(** The final sort keeps what was appended, no more and no less. *)
Lemma Collections_In (c : Collection.t) :
  In c (Collections s site)
  <-> In c (directCollections s site) \/ In c (connectionCollections s site).
Proof.
  unfold Collections, built. rewrite <- in_app_iff. split; intros H.
  - eapply Permutation_in; [apply Permutation_sym, sortSlice_Permutation | exact H].
  - eapply Permutation_in; [apply sortSlice_Permutation | exact H].
Qed.

End Built.

(** ** The span of a Collection *)

Lemma intersection_all_overlap (sp : Span.t) (spans : list Span.t) :
  Span.intersection sp spans -> Span.all_overlap spans = true.
Proof.
  intros [Hne H]. unfold Span.all_overlap.
  assert (F : Forall (fun x => Span.contains x (Span.Start sp)) spans).
  { apply H. unfold Span.contains. lia. }
  rewrite Forall_forall in F.
  apply forallb_forall; intros a Ha. apply forallb_forall; intros b Hb.
  apply SpanFacts.Overlaps_iff. exists (Span.Start sp). split; apply F; assumption.
Qed.

Lemma all_overlap_pair (a b : Span.t) :
  Span.all_overlap [a; b] = true -> Span.Overlaps a b = true.
Proof.
  unfold Span.all_overlap; simpl. rewrite !andb_true_iff. tauto.
Qed.

Lemma sortSlice_nil {sorter : SliceSorter} {A : Type} (less : A -> A -> bool) :
  sortSlice less [] = [].
Proof.
  apply Permutation_nil. apply sortSlice_Permutation.
Qed.

Lemma sortSlice_singleton {sorter : SliceSorter} {A : Type} (less : A -> A -> bool)
    (x : A) :
  sortSlice less [x] = [x].
Proof.
  apply Permutation_length_1_inv. apply sortSlice_Permutation.
Qed.

Lemma directMatch_span (s : MetaSet.t) (site : Site.t)
    recorder stream span component channel :
  directMatch s site recorder stream span component channel ->
  Span.intersection span [InstalledRecorder.Span recorder; Stream.Span stream].
Proof.
  intros (_ & _ & E & _). apply SpanFacts.Extent_true in E. tauto.
Qed.

Lemma directMatch_bounds (s : MetaSet.t) (site : Site.t)
    recorder stream span component channel :
  directMatch s site recorder stream span component channel ->
  span = Span.mk (Span.latest (InstalledRecorder.Span recorder) [Stream.Span stream])
                 (Span.earliest (InstalledRecorder.Span recorder) [Stream.Span stream]).
Proof.
  intros (_ & _ & E & _). apply SpanFacts.Extent_true in E. tauto.
Qed.

Lemma connectionMatch_span (s : MetaSet.t) (site : Site.t)
    connection sensor datalogger stream span component channel :
  connectionMatch s site connection sensor datalogger stream span component channel ->
  Span.intersection span
    [Connection.Span connection; InstalledSensor.Span sensor;
     DeployedDatalogger.Span datalogger; Stream.Span stream].
Proof.
  intros (_ & _ & _ & _ & (span0 & E0 & E) & _).
  apply SpanFacts.Extent_true in E0, E.
  destruct E0 as (_ & I0 & _). destruct E as (_ & I & _).
  exact (SpanFacts.intersection_app span0 span _ _ I0 I).
Qed.

Lemma connectionMatch_bounds (s : MetaSet.t) (site : Site.t)
    connection sensor datalogger stream span component channel :
  connectionMatch s site connection sensor datalogger stream span component channel ->
  span = Span.mk
           (Span.latest (Connection.Span connection)
              [InstalledSensor.Span sensor; DeployedDatalogger.Span datalogger;
               Stream.Span stream])
           (Span.earliest (Connection.Span connection)
              [InstalledSensor.Span sensor; DeployedDatalogger.Span datalogger;
               Stream.Span stream]).
Proof.
  intros (_ & _ & _ & _ & (span0 & E0 & E) & _).
  apply SpanFacts.Extent_true in E0, E.
  destruct E0 as (-> & _). destruct E as (-> & _). reflexivity.
Qed.

(** C1. Every Collection returned by [Collections] comes from a recorder and a
    stream, or from a connection, an installed sensor, a deployed datalogger
    and a stream, whose spans all overlap and whose intersection, not empty,
    is the Collection's Span: it starts at the latest of their starts and ends
    at the earliest of their ends.  A combination whose spans do not all overlap
    passes the tests of neither loop; when no recorder overlaps any stream the
    first loop appends nothing, and with no connection either [Collections]
    returns no Collection.  The recorder of 2000 to 2010 and the stream of 2001
    to 2009 give one Collection, of 2001 to 2009; the recorder of 1990 to 1995
    gives none. *)
Theorem Collections_span_is_intersection
    (sorter : SliceSorter) (s : MetaSet.t) (site : Site.t) :
  (forall c, In c (Collections s site) ->
     (exists recorder stream,
        In recorder (MetaSet.InstalledRecorders s)
        /\ In stream (MetaSet.Streams s)
        /\ Collection.InstalledSensor c = InstalledRecorder.InstalledSensor recorder
        /\ Collection.Stream c = stream
        /\ Span.intersection (Collection.Span c)
             [InstalledRecorder.Span recorder; Stream.Span stream]
        /\ Span.Start (Collection.Span c)
           = Z.max (InstalledRecorder.Start recorder) (Span.Start (Stream.Span stream))
        /\ Span.End (Collection.Span c)
           = Z.min (InstalledRecorder.End recorder) (Span.End (Stream.Span stream))
        /\ Span.all_overlap [InstalledRecorder.Span recorder; Stream.Span stream] = true)
     \/
     (exists connection sensor datalogger stream,
        In connection (MetaSet.Connections s)
        /\ In sensor (MetaSet.InstalledSensors s)
        /\ In datalogger (MetaSet.DeployedDataloggers s)
        /\ In stream (MetaSet.Streams s)
        /\ Collection.InstalledSensor c = sensor
        /\ Collection.DeployedDatalogger c = datalogger
        /\ Collection.Stream c = stream
        /\ Span.intersection (Collection.Span c)
             [Connection.Span connection; InstalledSensor.Span sensor;
              DeployedDatalogger.Span datalogger; Stream.Span stream]
        /\ Span.Start (Collection.Span c)
           = Span.latest (Connection.Span connection)
               [InstalledSensor.Span sensor; DeployedDatalogger.Span datalogger;
                Stream.Span stream]
        /\ Span.End (Collection.Span c)
           = Span.earliest (Connection.Span connection)
               [InstalledSensor.Span sensor; DeployedDatalogger.Span datalogger;
                Stream.Span stream]
        /\ Span.all_overlap
             [Connection.Span connection; InstalledSensor.Span sensor;
              DeployedDatalogger.Span datalogger; Stream.Span stream] = true))
  /\ (forall recorder stream span component channel,
        Span.Overlaps (InstalledRecorder.Span recorder) (Stream.Span stream) = false ->
        ~ directMatch s site recorder stream span component channel)
  /\ (forall connection sensor datalogger stream span component channel,
        Span.all_overlap
          [Connection.Span connection; InstalledSensor.Span sensor;
           DeployedDatalogger.Span datalogger; Stream.Span stream] = false ->
        ~ connectionMatch s site connection sensor datalogger stream span
            component channel)
  /\ ((forall recorder stream,
         In recorder (MetaSet.InstalledRecorders s) -> In stream (MetaSet.Streams s) ->
         Span.Overlaps (InstalledRecorder.Span recorder) (Stream.Span stream) = false) ->
      directCollections s site = []
      /\ (MetaSet.Connections s = [] -> Collections s site = []))
  /\ map Collection.Span (Collections joinSet joinSite) = [Span.mk 2001 2009]
  /\ Collections apartSet joinSite = [].
Proof.
  split; [|split; [|split; [|split; [|split]]]].
  - intros c Hc. apply Collections_In in Hc. destruct Hc as [Hc|Hc].
    + left. apply directCollections_In in Hc.
      destruct Hc as (recorder & stream & span & component & channel & M & ->).
      pose proof (directMatch_span s site _ _ _ _ _ M) as I.
      pose proof (directMatch_bounds s site _ _ _ _ _ M) as B.
      destruct M as ((Hr & _) & (Hs & _) & _).
      exists recorder, stream.
      split; [exact Hr|]. split; [exact Hs|]. do 2 (split; [reflexivity|]).
      split; [exact I|]. split; [simpl; rewrite B; reflexivity|].
      split; [simpl; rewrite B; reflexivity|].
      exact (intersection_all_overlap _ _ I).
    + right. apply connectionCollections_In in Hc.
      destruct Hc as (connection & sensor & datalogger & stream & span & component
                      & channel & M & ->).
      pose proof (connectionMatch_span s site _ _ _ _ _ _ _ M) as I.
      pose proof (connectionMatch_bounds s site _ _ _ _ _ _ _ M) as B.
      destruct M as ((Hn & _) & (Hse & _) & (Hd & _) & (Hs & _) & _).
      exists connection, sensor, datalogger, stream.
      split; [exact Hn|]. split; [exact Hse|]. split; [exact Hd|]. split; [exact Hs|].
      do 3 (split; [reflexivity|]).
      split; [exact I|]. split; [simpl; rewrite B; reflexivity|].
      split; [simpl; rewrite B; reflexivity|].
      exact (intersection_all_overlap _ _ I).
  - intros recorder stream span component channel Hno M.
    pose proof (directMatch_span s site _ _ _ _ _ M) as I.
    apply intersection_all_overlap, all_overlap_pair in I. congruence.
  - intros connection sensor datalogger stream span component channel Hno M.
    pose proof (connectionMatch_span s site _ _ _ _ _ _ _ M) as I.
    apply intersection_all_overlap in I. congruence.
  - intros Hno.
    assert (Hd : directCollections s site = []).
    { destruct (directCollections s site) as [|c l] eqn:E; [reflexivity|].
      assert (Hc : In c (directCollections s site)) by (rewrite E; left; reflexivity).
      apply directCollections_In in Hc.
      destruct Hc as (recorder & stream & span & component & channel & M & _).
      pose proof (directMatch_span s site _ _ _ _ _ M) as I.
      apply intersection_all_overlap, all_overlap_pair in I.
      destruct M as ((Hr & _) & (Hs & _) & _).
      rewrite (Hno recorder stream Hr Hs) in I. discriminate. }
    split; [exact Hd|]. intros Hn.
    unfold Collections, built, connectionCollections. rewrite Hd, Hn. simpl.
    apply sortSlice_nil.
  - unfold Collections.
    change (built joinSet joinSite)
      with [directEmitted joinSet joinRecorder joinStream (Span.mk 2001 2009)
              joinComponent joinChannel].
    rewrite sortSlice_singleton. reflexivity.
  - unfold Collections. change (built apartSet joinSite) with (@nil Collection.t).
    apply sortSlice_nil.
Qed.

(** ** The channels of the second path *)

Lemma int_add_exact (a b : Z) : int_range (a + b) -> int_add a b = a + b.
Proof.
  unfold int_range, int_add, int_wrap. intros H.
  rewrite Z.mod_small; lia.
Qed.

Lemma connectionChannel_iff connection datalogger stream component channel :
  connectionChannel connection datalogger stream component channel = true
  <-> DeployedDatalogger.Make datalogger = Channel.Make channel
      /\ DeployedDatalogger.Model datalogger = Channel.Model channel
      /\ (Stream.SamplingRate stream == Channel.SamplingRate channel)%Q
      /\ int_add (Component.Number component) (Connection.Number connection)
         >= Channel.Number channel.
Proof.
  unfold connectionChannel.
  rewrite !andb_true_iff, !String.eqb_eq, float_eq_iff, negb_true_iff, Z.ltb_ge.
  split; intros H; repeat split; try tauto; lia.
Qed.

(** C2. On the connection path a channel is joined into a Collection if and
    only if its Make and Model are the deployed datalogger's, its SamplingRate
    is the stream's and component.Number + connection.Number >=
    channel.Number, the sum being Go's; every Collection of the path passes
    these tests for a connection of the site, and every channel that passes
    them, for records that pass the outer tests, is in the result; with
    connection Number 1 and component Number 2 a channel numbered 3 is joined
    and a channel numbered 4 is not. *)
Theorem connection_channel_joined_iff
    (sorter : SliceSorter) (s : MetaSet.t) (site : Site.t) :
  (forall connection sensor datalogger stream span component gains sensors channel,
     In channel (MetaSet.Channels s) ->
     ((exists c,
         In c (connectionChannels s connection sensor datalogger stream span
                 component gains sensors)
         /\ Collection.Channel c = channel)
      <-> DeployedDatalogger.Make datalogger = Channel.Make channel
          /\ DeployedDatalogger.Model datalogger = Channel.Model channel
          /\ (Stream.SamplingRate stream == Channel.SamplingRate channel)%Q
          /\ int_add (Component.Number component) (Connection.Number connection)
             >= Channel.Number channel))
  /\ (forall c, In c (connectionCollections s site) ->
        exists connection,
          In connection (MetaSet.Connections s)
          /\ Connection.Station connection = Site.Station site
          /\ Connection.Location connection = Site.Location site
          /\ In (Collection.Channel c) (MetaSet.Channels s)
          /\ DeployedDatalogger.Make (Collection.DeployedDatalogger c)
             = Channel.Make (Collection.Channel c)
          /\ DeployedDatalogger.Model (Collection.DeployedDatalogger c)
             = Channel.Model (Collection.Channel c)
          /\ (Stream.SamplingRate (Collection.Stream c)
              == Channel.SamplingRate (Collection.Channel c))%Q
          /\ int_add (Component.Number (Collection.Component c))
               (Connection.Number connection)
             >= Channel.Number (Collection.Channel c))
  /\ (forall connection sensor datalogger stream span component channel,
        connectionMatch s site connection sensor datalogger stream span component channel ->
        In (connectionEmitted s sensor datalogger stream span component channel)
           (Collections s site))
  /\ (forall a b, int_range (a + b) -> int_add a b = a + b)
  /\ map Collection.Channel
       (connectionChannels offsetSet offsetConnection offsetSensor offsetDatalogger
          offsetStream offsetSpan offsetComponent [] [])
     = [offsetChannel3]
  /\ map Collection.Channel (Collections offsetSet offsetSite) = [offsetChannel3].
Proof.
  split; [|split; [|split; [|split; [|split]]]].
  - intros connection sensor datalogger stream span component gains sensors channel Hch.
    rewrite <- connectionChannel_iff. unfold connectionChannels. split.
    + intros (c & Hc & <-). apply in_flat_map_if in Hc.
      destruct Hc as (channel' & _ & T & [<-|[]]). exact T.
    + intros T. eexists. split.
      * apply in_flat_map_if. exists channel. split; [exact Hch|].
        split; [exact T | left; reflexivity].
      * reflexivity.
  - intros c Hc. apply connectionCollections_In in Hc.
    destruct Hc as (connection & sensor & datalogger & stream & span & component
                    & channel & M & ->).
    destruct M as ((Hn & Cn1 & Cn2) & _ & _ & _ & _ & _ & (Hch & T)).
    apply connectionChannel_iff in T. exists connection. simpl. tauto.
  - intros connection sensor datalogger stream span component channel M.
    apply Collections_In. right. apply connectionCollections_In.
    exists connection, sensor, datalogger, stream, span, component, channel.
    split; [exact M | reflexivity].
  - exact int_add_exact.
  - reflexivity.
  - unfold Collections.
    change (built offsetSet offsetSite)
      with [connectionEmitted offsetSet offsetSensor offsetDatalogger offsetStream
              offsetSpan offsetComponent offsetChannel3].
    rewrite sortSlice_singleton. reflexivity.
Qed.

(** ** The order of the result *)

Lemma Sorted_weaken {A : Type} (R R' : A -> A -> Prop) (l : list A) :
  (forall x y, R x y -> R' x y) -> Sorted R l -> Sorted R' l.
Proof.
  intros HR. induction 1 as [|x l Hs IH Hh]; constructor; [exact IH|].
  destruct Hh; constructor. apply HR. assumption.
Qed.

Lemma Sorted_adjacent {A : Type} (R : A -> A -> Prop) (l : list A) :
  Sorted R l ->
  forall i x y, nth_error l i = Some x -> nth_error l (S i) = Some y -> R x y.
Proof.
  induction 1 as [|a l Hs IH Hh]; intros i x y Hx Hy.
  - destruct i; discriminate.
  - destruct i as [|i]; simpl in Hx, Hy.
    + injection Hx as <-. destruct l as [|b l]; [discriminate|].
      simpl in Hy. injection Hy as <-. inversion Hh; assumption.
    + eapply IH; eassumption.
Qed.

(** C3. The sequence returned by [Collections] is sorted by [Less]: no element
    is less than the one before it.  [Less] reads six keys in turn, a later
    key breaking the ties of the earlier ones: the sensor's Station, its
    Location, the component Number, the channel Number and the start of the
    Span, each ascending, and the stream's SamplingRate, descending. *)
Theorem Collections_sorted (sorter : SliceSorter) (s : MetaSet.t) (site : Site.t) :
  ordered Collection.Less (Collections s site)
  /\ (forall i earlier later,
        nth_error (Collections s site) i = Some earlier ->
        nth_error (Collections s site) (S i) = Some later ->
        Collection.Less later earlier = false)
  /\ (forall c d,
        Collection.Less c d =
        lex (fun x y => String.ltb (stationKey x) (stationKey y))
         (lex (fun x y => String.ltb (locationKey x) (locationKey y))
           (lex (fun x y => componentKey x <? componentKey y)
             (lex (fun x y => channelKey x <? channelKey y)
               (lex (fun x y => startKey x <? startKey y)
                    (fun x y => float_lt (rateKey y) (rateKey x))))))
         c d).
Proof.
  assert (H : ordered Collection.Less (Collections s site))
    by (apply sortSlice_ordered; exact Less_strict_weak).
  split; [exact H|]. split; [|exact Less_lex].
  intros i earlier later. apply (Sorted_adjacent _ _ H).
Qed.

(** ** Ties *)


Lemma precedes_nil {A : Type} (x y : A) : ~ precedes x y [].
Proof. intros ([|i] & j & _ & Hi & _); discriminate Hi. Qed.

Lemma precedes_cons {A : Type} (x y a : A) (l : list A) :
  precedes x y (a :: l) -> (a = x /\ In y l) \/ precedes x y l.
Proof.
  intros (i & j & Hlt & Hi & Hj).
  destruct j as [|j]; [lia|]. simpl in Hj. destruct i as [|i]; simpl in Hi.
  - left. injection Hi as ->. split; [reflexivity|].
    apply nth_error_In with j. exact Hj.
  - right. exists i, j. repeat split; [lia | exact Hi | exact Hj].
Qed.

(** Refutes [precedes x y l] for a list [l] given element by element in
    which [x] does not stand before [y]. *)
Ltac not_before :=
  let P := fresh "P" in
  intros P;
  repeat (apply precedes_cons in P;
          destruct P as [[? P]|P];
          [try discriminate; simpl in P; intuition discriminate|]);
  exact (precedes_nil _ _ P).

(** Up to twelve elements [sort.Slice] is the insertion sort, which lets no
    element pass one it is not less than: the seven gains and the seven
    Collections of the ties come out with the tied ones in the order of the
    registry and of the loops. *)
Lemma tie_gains_Slice :
  @collectGains pdqSorter tieSet tieStream tieComponent0 tieSpan
  = [tieGain6; tieGain0; tieGain1; tieGain2; tieGain3; tieGain4; tieGain5].
Proof. reflexivity. Qed.

Lemma tie_gains_insertionSort :
  @collectGains insertionSorter tieSet tieStream tieComponent0 tieSpan
  = [tieGain6; tieGain0; tieGain1; tieGain2; tieGain3; tieGain4; tieGain5].
Proof. reflexivity. Qed.

Lemma tie_built (sorter : SliceSorter) :
  built tieSet tieSite
  = map (fun component =>
           directEmitted tieSet tieRecorder tieStream tieSpan component tieChannel)
        [tieComponent0; tieComponent1; tieComponent2; tieComponent3; tieComponent4;
         tieComponent5; tieComponent6].
Proof. reflexivity. Qed.

Lemma tie_Collections_Slice :
  @Collections pdqSorter tieSet tieSite
  = map (fun component =>
           @directEmitted pdqSorter tieSet tieRecorder tieStream tieSpan component
             tieChannel)
        [tieComponent6; tieComponent0; tieComponent1; tieComponent2; tieComponent3;
         tieComponent4; tieComponent5].
Proof. vm_compute. reflexivity. Qed.

Lemma tie_Collections_insertionSort :
  @Collections insertionSorter tieSet tieSite
  = map (fun component =>
           @directEmitted insertionSorter tieSet tieRecorder tieStream tieSpan component
             tieChannel)
        [tieComponent6; tieComponent0; tieComponent1; tieComponent2; tieComponent3;
         tieComponent4; tieComponent5].
Proof. vm_compute. reflexivity. Qed.

(** Thirteen elements are partitioned first.  The pivot is the median of the
    elements 3, 6 and 9, here the seventh of the twelve tied ones: it is
    swapped to the front, the first element taking its place, the early
    thirteenth is swapped with the second, and pivot and thirteenth change
    places at the end; the eleven elements behind them are then sorted by
    insertion.  The result is that of [Slice] itself, in order as it is. *)
Lemma crowd_gains_Slice :
  @collectGains pdqSorter crowdSet tieStream (crowdComponent "N") tieSpan
  = Slice gainLess crowdGains
  /\ Slice gainLess crowdGains
     = tieGain6
       :: map crowdGain
            [2016; 2012; 2013; 2014; 2015; 2010; 2017; 2018; 2019; 2020; 2021; 2011].
Proof. split; reflexivity. Qed.

Lemma crowd_built (sorter : SliceSorter) :
  built crowdSet tieSite
  = map (fun component =>
           directEmitted crowdSet tieRecorder tieStream tieSpan component tieChannel)
        crowdComponents.
Proof. reflexivity. Qed.

Lemma crowd_Collections_Slice :
  @Collections pdqSorter crowdSet tieSite
  = Slice Collection.Less (@built pdqSorter crowdSet tieSite)
  /\ @Collections pdqSorter crowdSet tieSite
     = map (fun component =>
              @directEmitted pdqSorter crowdSet tieRecorder tieStream tieSpan component
                tieChannel)
           (tieComponent6
            :: map crowdComponent
                 ["A"; "U"; "V"; "W"; "R"; "N"; "B"; "C"; "D"; "F"; "G"; "E"]%string).
Proof. split; vm_compute; reflexivity. Qed.

(** C4, as stated, fails.  The sort of [sort.Slice] is the insertion sort up
    to twelve elements only.  Of thirteen matching gains, twelve that start
    together and then one that starts earlier, two of the twelve leave
    [collectGains] in the other order than the registry's; and of thirteen
    Collections, twelve that agree on the six keys, two leave [Collections] in
    the other order than the loops appended them. *)
Lemma sorting_not_stable :
  ~ stable gainLess
      (gainsKept crowdSet tieStream (crowdComponent "N") tieSpan)
      (@collectGains pdqSorter crowdSet tieStream (crowdComponent "N") tieSpan)
  /\ ~ stable Collection.Less
         (@built pdqSorter crowdSet tieSite)
         (@Collections pdqSorter crowdSet tieSite).
Proof.
  split.
  - intros H. rewrite (proj1 crowd_gains_Slice), (proj2 crowd_gains_Slice) in H.
    specialize (H (crowdGain 2011) (crowdGain 2012) eq_refl eq_refl).
    assert (P := H (ex_intro _ 1%nat (ex_intro _ 2%nat
                      (conj (Nat.lt_succ_diag_r 1) (conj eq_refl eq_refl))))).
    revert P. cbn [map]. not_before.
  - intros H. rewrite (proj2 crowd_Collections_Slice), crowd_built in H.
    specialize (H (@directEmitted pdqSorter crowdSet tieRecorder tieStream tieSpan
                     (crowdComponent "E") tieChannel)
                  (@directEmitted pdqSorter crowdSet tieRecorder tieStream tieSpan
                     (crowdComponent "U") tieChannel) eq_refl eq_refl).
    assert (P := H (ex_intro _ 1%nat (ex_intro _ 2%nat
                      (conj (Nat.lt_succ_diag_r 1) (conj eq_refl eq_refl))))).
    revert P. cbn [map]. not_before.
Qed.

(** C4, amended.  Whatever sort meets the contract of [sort.Slice], the gains
    and the calibrations of a Collection are those kept from the registry, in
    ascending order of span start, and the result of [Collections] is what the
    two loops appended, in the order of [Less].  The order of records that
    start together, and of Collections that agree on the six keys, is the one
    the sort leaves them in. *)
Theorem sorting_orders_by_key (sorter : SliceSorter) (s : MetaSet.t) (site : Site.t) :
  (forall stream component span,
     Permutation (gainsKept s stream component span)
                 (collectGains s stream component span)
     /\ Sorted (fun x y => Span.Start (Gain.Span x) <= Span.Start (Gain.Span y))
               (collectGains s stream component span))
  /\ (forall make model serial number span,
        Permutation (calibrationsKept s make model serial number span)
                    (collectCalibrations s make model serial number span)
        /\ Sorted (fun x y => Span.Start (Calibration.Span x)
                              <= Span.Start (Calibration.Span y))
                  (collectCalibrations s make model serial number span))
  /\ (Permutation (built s site) (Collections s site)
      /\ ordered Collection.Less (Collections s site)).
Proof.
  split; [|split].
  - intros stream component span. split; [apply sortSlice_Permutation|].
    apply (Sorted_weaken (fun x y => gainLess y x = false)).
    + unfold gainLess, Before. intros x y H. apply Z.ltb_ge in H. exact H.
    + apply sortSlice_ordered. exact gainLess_strict_weak.
  - intros make model serial number span. split; [apply sortSlice_Permutation|].
    apply (Sorted_weaken (fun x y => calibrationLess y x = false)).
    + unfold calibrationLess, Before. intros x y H. apply Z.ltb_ge in H. exact H.
    + apply sortSlice_ordered. exact calibrationLess_strict_weak.
  - split; [apply sortSlice_Permutation|].
    apply sortSlice_ordered. exact Less_strict_weak.
Qed.

(** ** The Collections of the first path *)

Lemma span_eta (sp : Span.t) : Span.mk (Span.Start sp) (Span.End sp) = sp.
Proof. destruct sp; reflexivity. Qed.

(** C5. Every Collection of the first path has the sensor of a recorder of the
    site as its InstalledSensor, and a DeployedDatalogger whose Equipment is
    the recorder's sensor make, the recorder's DataloggerModel and the
    recorder's sensor serial, and whose span is the recorder's own. *)
Theorem direct_collection_datalogger
    (sorter : SliceSorter) (s : MetaSet.t) (site : Site.t) (c : Collection.t) :
  In c (directCollections s site) ->
  exists recorder,
    In recorder (MetaSet.InstalledRecorders s)
    /\ InstalledRecorder.Station recorder = Site.Station site
    /\ InstalledRecorder.Location recorder = Site.Location site
    /\ Collection.InstalledSensor c = InstalledRecorder.InstalledSensor recorder
    /\ Install.Equipment (DeployedDatalogger.Install (Collection.DeployedDatalogger c))
       = {| Equipment.Make :=
              InstalledSensor.Make (InstalledRecorder.InstalledSensor recorder);
            Equipment.Model := InstalledRecorder.DataloggerModel recorder;
            Equipment.Serial :=
              InstalledSensor.Serial (InstalledRecorder.InstalledSensor recorder) |}
    /\ DeployedDatalogger.Span (Collection.DeployedDatalogger c)
       = InstalledRecorder.Span recorder.
Proof.
  intros Hc. apply directCollections_In in Hc.
  destruct Hc as (recorder & stream & span & component & channel & M & ->).
  destruct M as ((Hr & Cr1 & Cr2) & _).
  exists recorder. repeat split; try assumption.
  unfold DeployedDatalogger.Span; simpl. apply span_eta.
Qed.

Lemma direct_collection_datalogger_witness :
  exists recorder,
    In recorder (MetaSet.InstalledRecorders joinSet)
    /\ InstalledRecorder.Station recorder = Site.Station joinSite
    /\ InstalledRecorder.Location recorder = Site.Location joinSite
    /\ Collection.InstalledSensor joinCollection
       = InstalledRecorder.InstalledSensor recorder
    /\ Install.Equipment
         (DeployedDatalogger.Install (Collection.DeployedDatalogger joinCollection))
       = {| Equipment.Make :=
              InstalledSensor.Make (InstalledRecorder.InstalledSensor recorder);
            Equipment.Model := InstalledRecorder.DataloggerModel recorder;
            Equipment.Serial :=
              InstalledSensor.Serial (InstalledRecorder.InstalledSensor recorder) |}
    /\ DeployedDatalogger.Span (Collection.DeployedDatalogger joinCollection)
       = InstalledRecorder.Span recorder.
Proof.
  apply (direct_collection_datalogger insertionSorter joinSet joinSite joinCollection).
  vm_compute. left. reflexivity.
Defined.

(** The basic join: one recorder, one stream, one component and one channel
    that match give exactly one Collection, of span 2001 to 2009, of code
    "HHZ" and of azimuth 90 without polarity. *)
Theorem basic_join (sorter : SliceSorter) :
  exists c,
    Collections joinSet joinSite = [c]
    /\ Collection.Span c = Span.mk 2001 2009
    /\ Collection.Code c = "HHZ"%string
    /\ Collection.Azimuth 0 c None = Some 90%Q.
Proof.
  exists (directEmitted joinSet joinRecorder joinStream (Span.mk 2001 2009)
            joinComponent joinChannel).
  split; [|repeat split].
  unfold Collections.
  change (built joinSet joinSite)
    with [directEmitted joinSet joinRecorder joinStream (Span.mk 2001 2009)
            joinComponent joinChannel].
  apply sortSlice_singleton.
Qed.

(** C10, as stated, fails: a Collection of the connection path has an empty
    Place and an empty Role when the connection and the datalogger have. *)
Lemma connection_collection_without_place :
  exists c,
    In c (@Collections insertionSorter bareSet offsetSite)
    /\ In c (@connectionCollections insertionSorter bareSet offsetSite)
    /\ DeployedDatalogger.Place (Collection.DeployedDatalogger c) = EmptyString
    /\ DeployedDatalogger.Role (Collection.DeployedDatalogger c) = EmptyString.
Proof.
  exists (@connectionEmitted insertionSorter bareSet offsetSensor bareDatalogger
            offsetStream offsetSpan offsetComponent offsetChannel3).
  split; [vm_compute; left; reflexivity|].
  split; [vm_compute; left; reflexivity|].
  split; reflexivity.
Qed.

(** C10, amended.  Every Collection of the first path has a DeployedDatalogger
    with an empty Place and an empty Role.  A Collection of the second path has
    a datalogger of the registry, with the Place and the Role of a connection
    of the site.  So a Collection with a Place or a Role comes from the second
    path. *)
Theorem direct_collection_place_role
    (sorter : SliceSorter) (s : MetaSet.t) (site : Site.t) :
  (forall c, In c (directCollections s site) ->
     DeployedDatalogger.Place (Collection.DeployedDatalogger c) = EmptyString
     /\ DeployedDatalogger.Role (Collection.DeployedDatalogger c) = EmptyString)
  /\ (forall c, In c (connectionCollections s site) ->
        In (Collection.DeployedDatalogger c) (MetaSet.DeployedDataloggers s)
        /\ exists connection,
             In connection (MetaSet.Connections s)
             /\ Connection.Station connection = Site.Station site
             /\ Connection.Location connection = Site.Location site
             /\ DeployedDatalogger.Place (Collection.DeployedDatalogger c)
                = Connection.Place connection
             /\ DeployedDatalogger.Role (Collection.DeployedDatalogger c)
                = Connection.Role connection)
  /\ (forall c, In c (Collections s site) ->
        DeployedDatalogger.Place (Collection.DeployedDatalogger c) <> EmptyString
        \/ DeployedDatalogger.Role (Collection.DeployedDatalogger c) <> EmptyString ->
        In c (connectionCollections s site)).
Proof.
  assert (Hdirect : forall c, In c (directCollections s site) ->
    DeployedDatalogger.Place (Collection.DeployedDatalogger c) = EmptyString
    /\ DeployedDatalogger.Role (Collection.DeployedDatalogger c) = EmptyString).
  { intros c Hc. apply directCollections_In in Hc.
    destruct Hc as (recorder & stream & span & component & channel & _ & ->).
    split; reflexivity. }
  split; [exact Hdirect|]. split.
  - intros c Hc. apply connectionCollections_In in Hc.
    destruct Hc as (connection & sensor & datalogger & stream & span & component
                    & channel & M & ->).
    destruct M as ((Hn & Cn1 & Cn2) & _ & (Hd & Cd1 & Cd2) & _).
    split; [exact Hd|]. exists connection. simpl. tauto.
  - intros c Hc Hne. apply Collections_In in Hc. destruct Hc as [Hc|Hc]; [|exact Hc].
    destruct (Hdirect c Hc) as [P R]. rewrite P, R in Hne.
    destruct Hne as [Hne|Hne]; contradiction Hne; reflexivity.
Qed.

(** ** Subsource *)

Lemma upper_byte_N (a : ascii) :
  upper_byte a = "N"%char <-> a = "N"%char \/ a = "n"%char.
Proof.
  split.
  - destruct a as [[] [] [] [] [] [] [] []]; vm_compute; intros H;
      try discriminate H; auto.
  - intros [->| ->]; reflexivity.
Qed.

Lemma upper_byte_E (a : ascii) :
  upper_byte a = "E"%char <-> a = "E"%char \/ a = "e"%char.
Proof.
  split.
  - destruct a as [[] [] [] [] [] [] [] []]; vm_compute; intros H;
      try discriminate H; auto.
  - intros [->| ->]; reflexivity.
Qed.

Lemma ToUpper_N (s : string) :
  ToUpper s = "N"%string <-> s = "N"%string \/ s = "n"%string.
Proof.
  split.
  - destruct s as [|a [|b r]]; simpl; intros H; try discriminate H.
    injection H as H. apply upper_byte_N in H. destruct H as [->| ->]; auto.
  - intros [->| ->]; reflexivity.
Qed.

Lemma ToUpper_E (s : string) :
  ToUpper s = "E"%string <-> s = "E"%string \/ s = "e"%string.
Proof.
  split.
  - destruct s as [|a [|b r]]; simpl; intros H; try discriminate H.
    injection H as H. apply upper_byte_E in H. destruct H as [->| ->]; auto.
  - intros [->| ->]; reflexivity.
Qed.

(** C6, as stated, fails: with an axial stream, the subsource "n", which is
    neither "N" nor "E", is not returned unchanged: [Subsource] returns "1". *)
Lemma Subsource_lower_case_mapped :
  Stream.Axial (Collection.Stream lowerCollection) = "true"%string
  /\ Component.Subsource (Collection.Component lowerCollection) <> "N"%string
  /\ Component.Subsource (Collection.Component lowerCollection) <> "E"%string
  /\ Collection.Subsource lowerCollection = "1"%string
  /\ Collection.Subsource lowerCollection
     <> Component.Subsource (Collection.Component lowerCollection).
Proof.
  repeat split; try reflexivity; vm_compute; intros H; discriminate H.
Qed.

(** C6, amended.  When Stream.Axial, in lower case, is "true" or "yes",
    [Subsource] returns "1" for the Component.Subsource "N" or "n", "2" for "E"
    or "e", and Component.Subsource unchanged for any other value; when it is
    not, [Subsource] returns Component.Subsource unchanged. *)
Theorem Subsource_mapping (c : Collection.t) :
  (Collection.axial c = true
   <-> ToLower (Stream.Axial (Collection.Stream c)) = "true"%string
       \/ ToLower (Stream.Axial (Collection.Stream c)) = "yes"%string)
  /\ (Collection.axial c = true ->
      Component.Subsource (Collection.Component c) = "N"%string
      \/ Component.Subsource (Collection.Component c) = "n"%string ->
      Collection.Subsource c = "1"%string)
  /\ (Collection.axial c = true ->
      Component.Subsource (Collection.Component c) = "E"%string
      \/ Component.Subsource (Collection.Component c) = "e"%string ->
      Collection.Subsource c = "2"%string)
  /\ (Collection.axial c = true ->
      Component.Subsource (Collection.Component c) <> "N"%string ->
      Component.Subsource (Collection.Component c) <> "n"%string ->
      Component.Subsource (Collection.Component c) <> "E"%string ->
      Component.Subsource (Collection.Component c) <> "e"%string ->
      Collection.Subsource c = Component.Subsource (Collection.Component c))
  /\ (Collection.axial c = false ->
      Collection.Subsource c = Component.Subsource (Collection.Component c)).
Proof.
  unfold Collection.Subsource. split; [|split; [|split; [|split]]].
  - unfold Collection.axial. rewrite orb_true_iff, !String.eqb_eq. tauto.
  - intros -> H. apply ToUpper_N in H. rewrite H. reflexivity.
  - intros -> H. apply ToUpper_E in H. rewrite H. reflexivity.
  - intros -> HN Hn HE He.
    destruct (String.eqb_spec (ToUpper (Component.Subsource (Collection.Component c))) "N")
      as [E|_]; [apply ToUpper_N in E; tauto|].
    destruct (String.eqb_spec (ToUpper (Component.Subsource (Collection.Component c))) "E")
      as [E|_]; [apply ToUpper_E in E; tauto|].
    reflexivity.
  - intros ->. reflexivity.
Qed.

(** ** Dip and Azimuth *)

Section Rounding.

Import PrimFloat.

(** C7.  On binary64 values the loop of [Azimuth] need not end.  The binary64
    values about -1e19 are 2048 apart, so that [-1e19 + 360.0] rounds to -1e19
    again: the azimuth stays negative whatever the number of iterations, and
    the call returns nothing, where it was to return a value of [0, 360).  A
    NaN azimuth is not below 0.0 and leaves the loop as it is, for [math.Mod],
    which returns NaN for it.  An azimuth of -721 leaves the loop as 359 after
    three additions, and whenever the loop ends it ends on an azimuth that is
    not below 0.0. *)
Theorem Azimuth_loop_unending :
  (-1e19 + 360 =? -1e19)%float = true
  /\ (forall fuel, Binary64.positive fuel (-1e19)%float = None)
  /\ (forall fuel, Binary64.positive fuel nan = Some nan)
  /\ Binary64.positive 3 (-721)%float = Some 359%float
  /\ (forall fuel azimuth a,
        Binary64.positive fuel azimuth = Some a -> (a <? 0)%float = false).
Proof.
  split; [reflexivity|]. split; [|split; [|split; [reflexivity|]]].
  - induction fuel as [|fuel IH]; [reflexivity | exact IH].
  - intros [|fuel]; reflexivity.
  - induction fuel as [|fuel IH]; intros azimuth a; simpl;
      destruct (azimuth <? 0)%float eqn:E; try discriminate.
    + intros H; injection H as <-. exact E.
    + apply IH.
    + intros H; injection H as <-. exact E.
Qed.

End Rounding.

Section Orientation.

Local Open Scope Q_scope.

(** C8. [Dip] returns 0.0 when Component.Dip equals 0.0; otherwise it returns
    Component.Dip, with its sign flipped exactly when the polarity is not nil
    and has Primary and Reversed both true; a Component.Dip of 45 with such a
    polarity gives -45. *)
Theorem Dip_polarity (c : Collection.t) (polarity : option Polarity.t) :
  (Component.Dip (Collection.Component c) == 0 -> Collection.Dip c polarity = 0)
  /\ (~ Component.Dip (Collection.Component c) == 0 ->
      (exists p, polarity = Some p
                 /\ Polarity.Primary p = true /\ Polarity.Reversed p = true) ->
      Collection.Dip c polarity = - Component.Dip (Collection.Component c))
  /\ (~ Component.Dip (Collection.Component c) == 0 ->
      ~ (exists p, polarity = Some p
                   /\ Polarity.Primary p = true /\ Polarity.Reversed p = true) ->
      Collection.Dip c polarity = Component.Dip (Collection.Component c))
  /\ (Component.Dip (Collection.Component c) = 45 ->
      Collection.Dip c (Some (Polarity.mk true true)) = -45).
Proof.
  assert (R : Collection.reversed polarity = true
              <-> exists p, polarity = Some p
                            /\ Polarity.Primary p = true /\ Polarity.Reversed p = true).
  { unfold Collection.reversed. destruct polarity as [p|].
    - rewrite andb_true_iff. split.
      + intros H. exists p. tauto.
      + intros (p' & E & H). injection E as ->. exact H.
    - split; [discriminate|]. intros (p & E & _). discriminate. }
  unfold Collection.Dip. split; [|split; [|split]].
  - intros H. apply float_eq_iff in H. rewrite H. reflexivity.
  - intros H Hp.
    destruct (float_eq (Component.Dip (Collection.Component c)) 0) eqn:E.
    + apply float_eq_iff in E. contradiction.
    + apply R in Hp. rewrite Hp. reflexivity.
  - intros H Hp.
    destruct (float_eq (Component.Dip (Collection.Component c)) 0) eqn:E.
    + apply float_eq_iff in E. contradiction.
    + destruct (Collection.reversed polarity) eqn:E'; [|reflexivity].
      exfalso. apply Hp, R. reflexivity.
  - intros ->. reflexivity.
Qed.

(** C9. [Dip] and [Azimuth] are never both non-zero: when Component.Dip is 0.0
    [Dip] returns 0.0, and when it is not [Azimuth] returns 0.0. *)
Theorem Dip_Azimuth_exclusive (c : Collection.t) (polarity : option Polarity.t) :
  (Component.Dip (Collection.Component c) == 0 -> Collection.Dip c polarity = 0)
  /\ (~ Component.Dip (Collection.Component c) == 0 ->
      forall fuel, Collection.Azimuth fuel c polarity = Some 0)
  /\ (forall fuel r,
        Collection.Azimuth fuel c polarity = Some r ->
        Collection.Dip c polarity = 0 \/ r = 0).
Proof.
  unfold Collection.Dip, Collection.Azimuth.
  destruct (float_eq (Component.Dip (Collection.Component c)) 0) eqn:E; simpl.
  - split; [reflexivity|]. split.
    + intros H. apply float_eq_iff in E. contradiction.
    + intros fuel r _. left. reflexivity.
  - split; [|split].
    + intros H. apply float_eq_iff in H. congruence.
    + intros _ fuel. reflexivity.
    + intros fuel r H. right. congruence.
Qed.

End Orientation.

(** * Further properties of the join *)

(** ** Which Collections are returned *)

Lemma Collections_inv {sorter : SliceSorter} (s : MetaSet.t) (site : Site.t)
    (c : Collection.t) :
  In c (Collections s site) ->
  (exists recorder stream span component channel,
     directMatch s site recorder stream span component channel
     /\ c = directEmitted s recorder stream span component channel)
  \/ (exists connection sensor datalogger stream span component channel,
        connectionMatch s site connection sensor datalogger stream span component channel
        /\ c = connectionEmitted s sensor datalogger stream span component channel).
Proof.
  intros H. apply Collections_In in H. destruct H as [H|H].
  - left. apply directCollections_In. exact H.
  - right. apply connectionCollections_In. exact H.
Qed.

(** X1. [Collections] returns exactly the Collections of the combinations that
    pass the tests of one of its two loops: a recorder and a stream of the
    site whose spans have an extent, a component of the recorder's sensor make
    and model and a channel of the recorder's make, datalogger model and of
    the stream's sampling rate; or a connection and a sensor of the site, a
    datalogger at the connection's place and role, a stream of the site, their
    spans having an extent, a component of the sensor's make and model and a
    channel that passes the four tests of the second path.  The final sort
    adds and drops nothing. *)
Theorem Collections_exactly (sorter : SliceSorter) (s : MetaSet.t) (site : Site.t)
    (c : Collection.t) :
  In c (Collections s site)
  <-> (exists recorder stream span component channel,
         directMatch s site recorder stream span component channel
         /\ c = directEmitted s recorder stream span component channel)
      \/ (exists connection sensor datalogger stream span component channel,
            connectionMatch s site connection sensor datalogger stream span
              component channel
            /\ c = connectionEmitted s sensor datalogger stream span component channel).
Proof.
  rewrite Collections_In, directCollections_In, connectionCollections_In. tauto.
Qed.

(** X3. Every Collection returned for a site has an InstalledSensor and a
    Stream of that site, a Stream, a Component and a Channel of the
    registries, a Component of the make and model of its InstalledSensor, and
    a Channel of the make and model of its DeployedDatalogger and of the
    sampling rate of its Stream: on the first path too, where the datalogger
    is made up from the recorder. *)
Theorem Collections_consistent (sorter : SliceSorter) (s : MetaSet.t) (site : Site.t)
    (c : Collection.t) :
  In c (Collections s site) ->
  (InstalledSensor.Station (Collection.InstalledSensor c) = Site.Station site
   /\ InstalledSensor.Location (Collection.InstalledSensor c) = Site.Location site
   /\ Stream.Station (Collection.Stream c) = Site.Station site
   /\ Stream.Location (Collection.Stream c) = Site.Location site)
  /\ (In (Collection.Stream c) (MetaSet.Streams s)
      /\ In (Collection.Component c) (MetaSet.Components s)
      /\ In (Collection.Channel c) (MetaSet.Channels s))
  /\ (InstalledSensor.Make (Collection.InstalledSensor c)
      = Component.Make (Collection.Component c)
      /\ InstalledSensor.Model (Collection.InstalledSensor c)
         = Component.Model (Collection.Component c))
  /\ (DeployedDatalogger.Make (Collection.DeployedDatalogger c)
      = Channel.Make (Collection.Channel c)
      /\ DeployedDatalogger.Model (Collection.DeployedDatalogger c)
         = Channel.Model (Collection.Channel c)
      /\ (Stream.SamplingRate (Collection.Stream c)
          == Channel.SamplingRate (Collection.Channel c))%Q).
Proof.
  intros H. apply Collections_inv in H. destruct H as [H|H].
  - destruct H as (recorder & stream & span & component & channel & M & ->).
    destruct M as ((_ & Cr1 & Cr2) & (Hs & Cs1 & Cs2) & _ & (Hc & Cc1 & Cc2)
                   & (Hch & Cch1 & Cch2 & Cch3)).
    simpl. repeat split; assumption.
  - destruct H as (connection & sensor & datalogger & stream & span & component
                   & channel & M & ->).
    destruct M as (_ & (_ & Cse1 & Cse2) & _ & (Hs & Cs1 & Cs2) & _ & (Hc & Cc1 & Cc2)
                   & (Hch & T)).
    apply connectionChannel_iff in T. destruct T as (T1 & T2 & T3 & _).
    simpl. repeat split; assumption.
Qed.

Lemma Collections_consistent_witness :
  In joinCollection (@Collections insertionSorter joinSet joinSite)
  /\ InstalledSensor.Station (Collection.InstalledSensor joinCollection)
     = Site.Station joinSite
  /\ DeployedDatalogger.Model (Collection.DeployedDatalogger joinCollection)
     = Channel.Model (Collection.Channel joinCollection).
Proof.
  assert (H : In joinCollection (@Collections insertionSorter joinSet joinSite))
    by (vm_compute; left; reflexivity).
  split; [exact H|].
  pose proof (Collections_consistent insertionSorter joinSet joinSite joinCollection H)
    as (S & _ & _ & D).
  split; [apply S | apply D].
Defined.

(** ** The gains and the calibrations of a Collection *)

Lemma collectGains_In {sorter : SliceSorter} (s : MetaSet.t) stream component span g :
  In g (collectGains s stream component span)
  <-> In g (MetaSet.Gains s)
      /\ Gain.Station g = Stream.Station stream
      /\ Gain.Location g = Stream.Location stream
      /\ Gain.Subsource g = Component.Subsource component
      /\ Span.Overlaps span (Gain.Span g) = true.
Proof.
  unfold collectGains.
  assert (P : In g (sortSlice gainLess (gainsKept s stream component span))
              <-> In g (gainsKept s stream component span)).
  { split; apply Permutation_in;
      [apply Permutation_sym|]; apply sortSlice_Permutation. }
  rewrite P. unfold gainsKept.
  rewrite filter_In, !andb_true_iff, !String.eqb_eq. tauto.
Qed.

Lemma collectCalibrations_In {sorter : SliceSorter} (s : MetaSet.t)
    make model serial number span k :
  In k (collectCalibrations s make model serial number span)
  <-> In k (MetaSet.Calibrations s)
      /\ Calibration.Make k = make
      /\ Calibration.Model k = model
      /\ Calibration.Serial k = serial
      /\ Calibration.Number k = number
      /\ Span.Overlaps span (Calibration.Span k) = true.
Proof.
  unfold collectCalibrations.
  assert (P : In k (sortSlice calibrationLess
                      (calibrationsKept s make model serial number span))
              <-> In k (calibrationsKept s make model serial number span)).
  { split; apply Permutation_in;
      [apply Permutation_sym|]; apply sortSlice_Permutation. }
  rewrite P. unfold calibrationsKept.
  rewrite filter_In, !andb_true_iff, !String.eqb_eq, Z.eqb_eq. tauto.
Qed.

(** X4. The Gains of a returned Collection are exactly the gains of the
    registry that have the station and the location of its Stream and the
    subsource of its Component and whose span passes [Overlaps] with the
    Collection's Span; they come in ascending order of span start. *)
Theorem Collections_gains (sorter : SliceSorter) (s : MetaSet.t) (site : Site.t)
    (c : Collection.t) :
  In c (Collections s site) ->
  (forall g,
     In g (Collection.Gains c)
     <-> In g (MetaSet.Gains s)
         /\ Gain.Station g = Stream.Station (Collection.Stream c)
         /\ Gain.Location g = Stream.Location (Collection.Stream c)
         /\ Gain.Subsource g = Component.Subsource (Collection.Component c)
         /\ Span.Overlaps (Collection.Span c) (Gain.Span g) = true)
  /\ Sorted (fun x y => Span.Start (Gain.Span x) <= Span.Start (Gain.Span y))
            (Collection.Gains c).
Proof.
  assert (S : forall stream component span,
    Sorted (fun x y => Span.Start (Gain.Span x) <= Span.Start (Gain.Span y))
           (collectGains s stream component span)).
  { intros. apply (Sorted_weaken (fun x y => gainLess y x = false)).
    - unfold gainLess, Before. intros x y H. apply Z.ltb_ge in H. exact H.
    - apply sortSlice_ordered. exact gainLess_strict_weak. }
  intros H. apply Collections_inv in H. destruct H as [H|H].
  - destruct H as (recorder & stream & span & component & channel & _ & ->).
    simpl. split; [intros g; apply collectGains_In | apply S].
  - destruct H as (connection & sensor & datalogger & stream & span & component
                   & channel & _ & ->).
    simpl. split; [intros g; apply collectGains_In | apply S].
Qed.

Lemma Collections_gains_witness :
  In (@directEmitted insertionSorter tieSet tieRecorder tieStream tieSpan
        tieComponent0 tieChannel)
     (@Collections insertionSorter tieSet tieSite)
  /\ In tieGain6
       (Collection.Gains
          (@directEmitted insertionSorter tieSet tieRecorder tieStream tieSpan
             tieComponent0 tieChannel)).
Proof.
  assert (H : In (@directEmitted insertionSorter tieSet tieRecorder tieStream tieSpan
                    tieComponent0 tieChannel)
                 (@Collections insertionSorter tieSet tieSite))
    by (vm_compute; right; left; reflexivity).
  split; [exact H|].
  apply (proj1 (Collections_gains insertionSorter tieSet tieSite _ H)).
  vm_compute. intuition.
Defined.

(** X5. The SensorCalibrations of a returned Collection are exactly the
    calibrations of the registry with the make, model and serial of its
    InstalledSensor and the number of its Component, and its
    DataloggerCalibrations exactly those with the make, model and serial of
    its DeployedDatalogger and the number of its Channel, whose span passes
    [Overlaps] with the Collection's Span; both come in ascending order of span
    start. *)
Theorem Collections_calibrations (sorter : SliceSorter) (s : MetaSet.t) (site : Site.t)
    (c : Collection.t) :
  In c (Collections s site) ->
  (forall k,
     In k (Collection.SensorCalibrations c)
     <-> In k (MetaSet.Calibrations s)
         /\ Calibration.Make k = InstalledSensor.Make (Collection.InstalledSensor c)
         /\ Calibration.Model k = InstalledSensor.Model (Collection.InstalledSensor c)
         /\ Calibration.Serial k = InstalledSensor.Serial (Collection.InstalledSensor c)
         /\ Calibration.Number k = Component.Number (Collection.Component c)
         /\ Span.Overlaps (Collection.Span c) (Calibration.Span k) = true)
  /\ (forall k,
        In k (Collection.DataloggerCalibrations c)
        <-> In k (MetaSet.Calibrations s)
            /\ Calibration.Make k
               = DeployedDatalogger.Make (Collection.DeployedDatalogger c)
            /\ Calibration.Model k
               = DeployedDatalogger.Model (Collection.DeployedDatalogger c)
            /\ Calibration.Serial k
               = DeployedDatalogger.Serial (Collection.DeployedDatalogger c)
            /\ Calibration.Number k = Channel.Number (Collection.Channel c)
            /\ Span.Overlaps (Collection.Span c) (Calibration.Span k) = true)
  /\ Sorted (fun x y => Span.Start (Calibration.Span x) <= Span.Start (Calibration.Span y))
            (Collection.SensorCalibrations c)
  /\ Sorted (fun x y => Span.Start (Calibration.Span x) <= Span.Start (Calibration.Span y))
            (Collection.DataloggerCalibrations c).
Proof.
  assert (S : forall make model serial number span,
    Sorted (fun x y => Span.Start (Calibration.Span x) <= Span.Start (Calibration.Span y))
           (collectCalibrations s make model serial number span)).
  { intros. apply (Sorted_weaken (fun x y => calibrationLess y x = false)).
    - unfold calibrationLess, Before. intros x y H. apply Z.ltb_ge in H. exact H.
    - apply sortSlice_ordered. exact calibrationLess_strict_weak. }
  intros H. apply Collections_inv in H. destruct H as [H|H].
  - destruct H as (recorder & stream & span & component & channel & _ & ->).
    simpl. split; [intros k; apply collectCalibrations_In|].
    split; [intros k; apply collectCalibrations_In|]. split; apply S.
  - destruct H as (connection & sensor & datalogger & stream & span & component
                   & channel & _ & ->).
    simpl. split; [intros k; apply collectCalibrations_In|].
    split; [intros k; apply collectCalibrations_In|]. split; apply S.
Qed.

Lemma Collections_calibrations_witness :
  In (@connectionEmitted insertionSorter calibratedSet offsetSensor offsetDatalogger
        offsetStream offsetSpan offsetComponent offsetChannel3)
     (@Collections insertionSorter calibratedSet offsetSite)
  /\ In sensorCalibrationLate
        (Collection.SensorCalibrations
           (@connectionEmitted insertionSorter calibratedSet offsetSensor offsetDatalogger
              offsetStream offsetSpan offsetComponent offsetChannel3))
  /\ ~ In sensorCalibrationOther
          (Collection.SensorCalibrations
             (@connectionEmitted insertionSorter calibratedSet offsetSensor
                offsetDatalogger offsetStream offsetSpan offsetComponent offsetChannel3))
  /\ ~ In sensorCalibrationPast
          (Collection.SensorCalibrations
             (@connectionEmitted insertionSorter calibratedSet offsetSensor
                offsetDatalogger offsetStream offsetSpan offsetComponent offsetChannel3))
  /\ In dataloggerCalibration
        (Collection.DataloggerCalibrations
           (@connectionEmitted insertionSorter calibratedSet offsetSensor offsetDatalogger
              offsetStream offsetSpan offsetComponent offsetChannel3))
  /\ ~ In sensorCalibrationLate
          (Collection.DataloggerCalibrations
             (@connectionEmitted insertionSorter calibratedSet offsetSensor
                offsetDatalogger offsetStream offsetSpan offsetComponent offsetChannel3))
  /\ Sorted (fun x y => Span.Start (Calibration.Span x) <= Span.Start (Calibration.Span y))
            (Collection.SensorCalibrations
               (@connectionEmitted insertionSorter calibratedSet offsetSensor
                  offsetDatalogger offsetStream offsetSpan offsetComponent
                  offsetChannel3)).
Proof.
  assert (H : In (@connectionEmitted insertionSorter calibratedSet offsetSensor
                    offsetDatalogger offsetStream offsetSpan offsetComponent
                    offsetChannel3)
                 (@Collections insertionSorter calibratedSet offsetSite))
    by (vm_compute; left; reflexivity).
  destruct (Collections_calibrations insertionSorter calibratedSet offsetSite _ H)
    as (Sensors & Dataloggers & Ascending & _).
  split; [exact H|]. split; [|split; [|split; [|split; [|split]]]].
  - apply Sensors. vm_compute. intuition.
  - intros K. apply Sensors in K. destruct K as (_ & _ & _ & K & _). discriminate K.
  - intros K. apply Sensors in K. destruct K as (_ & _ & _ & _ & _ & K). discriminate K.
  - apply Dataloggers. vm_compute. intuition.
  - intros K. apply Dataloggers in K. destruct K as (_ & K & _). discriminate K.
  - exact Ascending.
Defined.

(** The two calibrations kept for the sensor come out the earlier one first,
    the one kept for the datalogger alone. *)
Lemma calibrated_lists :
  Collection.SensorCalibrations
    (@connectionEmitted insertionSorter calibratedSet offsetSensor offsetDatalogger
       offsetStream offsetSpan offsetComponent offsetChannel3)
  = [sensorCalibrationEarly; sensorCalibrationLate]
  /\ Collection.DataloggerCalibrations
       (@connectionEmitted insertionSorter calibratedSet offsetSensor offsetDatalogger
          offsetStream offsetSpan offsetComponent offsetChannel3)
     = [dataloggerCalibration].
Proof. split; reflexivity. Qed.

(** ** Nothing to join *)

Lemma nil_iff {A : Type} (l : list A) : l = [] <-> forall x, ~ In x l.
Proof.
  split.
  - intros -> x H. exact H.
  - intros H. destruct l as [|x l]; [reflexivity|].
    exfalso. apply (H x). left. reflexivity.
Qed.

(** X6. [Collections] returns no Collection when the registry has no stream of
    the site, no component or no channel, and when the site has neither a
    recorder nor a connection; a connection of the site without a sensor of
    the site, or without any deployed datalogger, adds nothing to what the
    recorders give. *)
Theorem Collections_nothing_to_join (sorter : SliceSorter) (s : MetaSet.t)
    (site : Site.t) :
  ((forall stream, In stream (MetaSet.Streams s) ->
      ~ (Stream.Station stream = Site.Station site
         /\ Stream.Location stream = Site.Location site)) ->
   Collections s site = [])
  /\ (MetaSet.Components s = [] -> Collections s site = [])
  /\ (MetaSet.Channels s = [] -> Collections s site = [])
  /\ ((forall recorder, In recorder (MetaSet.InstalledRecorders s) ->
         ~ (InstalledRecorder.Station recorder = Site.Station site
            /\ InstalledRecorder.Location recorder = Site.Location site)) ->
      (forall connection, In connection (MetaSet.Connections s) ->
         ~ (Connection.Station connection = Site.Station site
            /\ Connection.Location connection = Site.Location site)) ->
      Collections s site = [])
  /\ ((forall sensor, In sensor (MetaSet.InstalledSensors s) ->
         ~ (InstalledSensor.Station sensor = Site.Station site
            /\ InstalledSensor.Location sensor = Site.Location site))
      \/ MetaSet.DeployedDataloggers s = [] ->
      connectionCollections s site = []).
Proof.
  split; [|split; [|split; [|split]]].
  - intros Hno. apply nil_iff. intros c Hc. apply Collections_inv in Hc.
    destruct Hc as [(r & st & sp & co & ch & M & _)
                   |(n & se & d & st & sp & co & ch & M & _)].
    + destruct M as (_ & (Hs & Cs1 & Cs2) & _). apply (Hno st Hs). tauto.
    + destruct M as (_ & _ & _ & (Hs & Cs1 & Cs2) & _). apply (Hno st Hs). tauto.
  - intros Hno. apply nil_iff. intros c Hc. apply Collections_inv in Hc.
    destruct Hc as [(r & st & sp & co & ch & M & _)
                   |(n & se & d & st & sp & co & ch & M & _)].
    + destruct M as (_ & _ & _ & (Hc & _) & _). rewrite Hno in Hc. exact Hc.
    + destruct M as (_ & _ & _ & _ & _ & (Hc & _) & _). rewrite Hno in Hc. exact Hc.
  - intros Hno. apply nil_iff. intros c Hc. apply Collections_inv in Hc.
    destruct Hc as [(r & st & sp & co & ch & M & _)
                   |(n & se & d & st & sp & co & ch & M & _)].
    + destruct M as (_ & _ & _ & _ & (Hc & _)). rewrite Hno in Hc. exact Hc.
    + destruct M as (_ & _ & _ & _ & _ & _ & (Hc & _)). rewrite Hno in Hc. exact Hc.
  - intros Hr Hn. apply nil_iff. intros c Hc. apply Collections_inv in Hc.
    destruct Hc as [(r & st & sp & co & ch & M & _)
                   |(n & se & d & st & sp & co & ch & M & _)].
    + destruct M as ((H & C1 & C2) & _). apply (Hr r H). tauto.
    + destruct M as ((H & C1 & C2) & _). apply (Hn n H). tauto.
  - intros Hno. apply nil_iff. intros c Hc. apply connectionCollections_In in Hc.
    destruct Hc as (n & se & d & st & sp & co & ch & M & _).
    destruct M as (_ & (Hse & C1 & C2) & (Hd & _) & _).
    destruct Hno as [Hno|Hno].
    + apply (Hno se Hse). tauto.
    + rewrite Hno in Hd. exact Hd.
Qed.

(** ** Gains and calibrations decide no Collection *)

Lemma map_flat_map {A B C : Type} (f : B -> C) (g : A -> list B) (l : list A) :
  map f (flat_map g l) = flat_map (fun x => map f (g x)) l.
Proof.
  induction l as [|x l IH]; simpl; [reflexivity|].
  rewrite map_app, IH. reflexivity.
Qed.

Lemma map_if_nil {B C : Type} (f : B -> C) (b : bool) (l : list B) :
  map f (if b then l else []) = if b then map f l else [].
Proof. destruct b; reflexivity. Qed.

Section Metadata.

Variables (sorter sorter' : SliceSorter) (s : MetaSet.t).
Variables (gains' : list Gain.t) (calibrations' : list Calibration.t).

Let s' : MetaSet.t := withMetadata s gains' calibrations'.

Lemma joined_directChannels recorder stream span component gains sensors gains0 sensors0 :
  map joined (@directChannels sorter s recorder stream span component gains sensors)
  = map joined (@directChannels sorter' s' recorder stream span component gains0 sensors0).
Proof.
  unfold directChannels. rewrite !map_flat_map. apply flat_map_ext. intros channel.
  rewrite !map_if_nil. reflexivity.
Qed.

Lemma joined_directComponents recorder stream span :
  map joined (@directComponents sorter s recorder stream span)
  = map joined (@directComponents sorter' s' recorder stream span).
Proof.
  unfold directComponents. rewrite !map_flat_map. apply flat_map_ext. intros component.
  rewrite !map_if_nil. cbv zeta.
  rewrite (joined_directChannels recorder stream span component _ _
             (@collectGains sorter' s' stream component span)
             (@collectCalibrations sorter' s'
                (InstalledSensor.Make (InstalledRecorder.InstalledSensor recorder))
                (InstalledSensor.Model (InstalledRecorder.InstalledSensor recorder))
                (InstalledSensor.Serial (InstalledRecorder.InstalledSensor recorder))
                (Component.Number component) span)).
  reflexivity.
Qed.

Lemma joined_directCollections site :
  map joined (@directCollections sorter s site)
  = map joined (@directCollections sorter' s' site).
Proof.
  unfold directCollections, directStreams.
  rewrite !map_flat_map. apply flat_map_ext. intros recorder.
  rewrite !map_if_nil, !map_flat_map.
  destruct (_ && _); [|reflexivity].
  apply flat_map_ext. intros stream. rewrite !map_if_nil.
  destruct (_ && _); [|reflexivity].
  destruct (Span.Extent (InstalledRecorder.Span recorder) [Stream.Span stream])
    as [span [|]]; [|reflexivity].
  apply joined_directComponents.
Qed.

Lemma joined_connectionChannels connection sensor datalogger stream span component
    gains sensors gains0 sensors0 :
  map joined (@connectionChannels sorter s connection sensor datalogger stream span
                component gains sensors)
  = map joined (@connectionChannels sorter' s' connection sensor datalogger stream span
                  component gains0 sensors0).
Proof.
  unfold connectionChannels. rewrite !map_flat_map. apply flat_map_ext. intros channel.
  rewrite !map_if_nil. reflexivity.
Qed.

Lemma joined_connectionComponents connection sensor datalogger stream span :
  map joined (@connectionComponents sorter s connection sensor datalogger stream span)
  = map joined (@connectionComponents sorter' s' connection sensor datalogger stream span).
Proof.
  unfold connectionComponents. rewrite !map_flat_map. apply flat_map_ext.
  intros component. rewrite !map_if_nil. cbv zeta.
  rewrite (joined_connectionChannels connection sensor datalogger stream span component
             _ _
             (@collectGains sorter' s' stream component span)
             (@collectCalibrations sorter' s'
                (InstalledSensor.Make sensor) (InstalledSensor.Model sensor)
                (InstalledSensor.Serial sensor) (Component.Number component) span)).
  reflexivity.
Qed.

Lemma joined_connectionCollections site :
  map joined (@connectionCollections sorter s site)
  = map joined (@connectionCollections sorter' s' site).
Proof.
  unfold connectionCollections, connectionSensors, connectionDataloggers,
    connectionStreams.
  rewrite !map_flat_map. apply flat_map_ext. intros connection.
  rewrite !map_if_nil, !map_flat_map.
  destruct (_ && _); [|reflexivity].
  apply flat_map_ext. intros sensor. rewrite !map_if_nil, !map_flat_map.
  destruct (_ && _); [|reflexivity].
  apply flat_map_ext. intros datalogger. rewrite !map_if_nil.
  destruct (_ && _); [|reflexivity].
  destruct (Span.Extent (Connection.Span connection)
              [InstalledSensor.Span sensor; DeployedDatalogger.Span datalogger])
    as [span0 [|]]; [|reflexivity].
  rewrite !map_flat_map. apply flat_map_ext. intros stream. rewrite !map_if_nil.
  destruct (_ && _); [|reflexivity].
  destruct (Span.Extent span0 [Stream.Span stream]) as [span [|]]; [|reflexivity].
  apply joined_connectionComponents.
Qed.

Lemma joined_built site :
  map joined (@built sorter s site) = map joined (@built sorter' s' site).
Proof.
  unfold built. rewrite !map_app, joined_directCollections, joined_connectionCollections.
  reflexivity.
Qed.

End Metadata.

(** X7. The gains and the calibrations of the registry decide no Collection:
    with other gains and other calibrations, and whatever the sort, the two
    loops append as many Collections, with the same Span, Stream, Channel,
    Component, InstalledSensor and DeployedDatalogger, in the same order, and
    [Collections] returns the same ones up to the order of its result.  A
    combination without any gain or calibration is returned with empty
    lists. *)
Theorem Collections_whatever_metadata (sorter sorter' : SliceSorter) (s : MetaSet.t)
    (site : Site.t) (gains : list Gain.t) (calibrations : list Calibration.t) :
  map joined (@built sorter s site)
  = map joined (@built sorter' (withMetadata s gains calibrations) site)
  /\ Permutation
       (map joined (@Collections sorter s site))
       (map joined (@Collections sorter' (withMetadata s gains calibrations) site))
  /\ List.length (@Collections sorter s site)
     = List.length (@Collections sorter' (withMetadata s gains calibrations) site)
  /\ (forall c, In c (@Collections sorter (withMetadata s [] []) site) ->
        Collection.Gains c = []
        /\ Collection.SensorCalibrations c = []
        /\ Collection.DataloggerCalibrations c = []).
Proof.
  pose proof (joined_built sorter sorter' s gains calibrations site) as E.
  assert (P : Permutation
                (map joined (@Collections sorter s site))
                (map joined (@Collections sorter' (withMetadata s gains calibrations) site))).
  { unfold Collections.
    eapply Permutation_trans;
      [apply Permutation_map, Permutation_sym, sortSlice_Permutation|].
    rewrite E. apply Permutation_map, sortSlice_Permutation. }
  split; [exact E|]. split; [exact P|]. split.
  - apply Permutation_length in P. rewrite !List.length_map in P. exact P.
  - intros c Hc.
    assert (G : forall stream component span,
              @collectGains sorter (withMetadata s [] []) stream component span = []).
    { intros. apply sortSlice_nil. }
    assert (K : forall make model serial number span,
              @collectCalibrations sorter (withMetadata s [] []) make model serial
                number span = []).
    { intros. apply sortSlice_nil. }
    apply Collections_inv in Hc.
    destruct Hc as [(r & st & sp & co & ch & _ & ->)
                   |(n & se & d & st & sp & co & ch & _ & ->)];
      simpl; rewrite G, !K; repeat split.
Qed.

(** ** Ties of Less and the order of the numbers *)

Lemma lex_tie {A : Type} (lt rest : A -> A -> bool) (x y : A) :
  lex lt rest x y = false /\ lex lt rest y x = false
  <-> (lt x y = false /\ lt y x = false) /\ (rest x y = false /\ rest y x = false).
Proof.
  unfold lex. destruct (lt x y), (lt y x); intuition congruence.
Qed.

Lemma strict_total_tie {A : Type} (lt : A -> A -> bool) (x y : A) :
  strict_total lt -> (lt x y = false /\ lt y x = false <-> x = y).
Proof.
  intros (Hirr & _ & Htri). split.
  - intros [H1 H2]. apply Htri; assumption.
  - intros ->. split; apply Hirr.
Qed.

Lemma float_lt_tie (x y : float64) :
  float_lt y x = false /\ float_lt x y = false <-> (x == y)%Q.
Proof.
  rewrite !float_lt_false_iff. split.
  - intros [H1 H2]. apply Qle_antisym; assumption.
  - intros H. rewrite H. split; apply Qle_refl.
Qed.

(** X8. Of two Collections of a result neither is [Less] than the other
    exactly when they agree on the six keys: the Station and the Location of
    the InstalledSensor, the Number of the Component, the Number of the
    Channel, the Start of the Span and the SamplingRate of the Stream.  No
    other field, the lists of gains and calibrations among them, is looked
    at. *)
Theorem Less_tie_iff (sorter : SliceSorter) (s : MetaSet.t) (site : Site.t)
    (c d : Collection.t) :
  In c (Collections s site) -> In d (Collections s site) ->
  (Collection.Less c d = false /\ Collection.Less d c = false
   <-> InstalledSensor.Station (Collection.InstalledSensor c)
       = InstalledSensor.Station (Collection.InstalledSensor d)
       /\ InstalledSensor.Location (Collection.InstalledSensor c)
          = InstalledSensor.Location (Collection.InstalledSensor d)
       /\ Component.Number (Collection.Component c)
          = Component.Number (Collection.Component d)
       /\ Channel.Number (Collection.Channel c) = Channel.Number (Collection.Channel d)
       /\ Span.Start (Collection.Span c) = Span.Start (Collection.Span d)
       /\ (Stream.SamplingRate (Collection.Stream c)
           == Stream.SamplingRate (Collection.Stream d))%Q).
Proof.
  intros _ _.
  rewrite !Less_lex, !lex_tie.
  rewrite (strict_total_tie String.ltb (stationKey c) (stationKey d)
             String_ltb_strict_total).
  rewrite (strict_total_tie String.ltb (locationKey c) (locationKey d)
             String_ltb_strict_total).
  rewrite (strict_total_tie Z.ltb (componentKey c) (componentKey d) Z_ltb_strict_total).
  rewrite (strict_total_tie Z.ltb (channelKey c) (channelKey d) Z_ltb_strict_total).
  rewrite (strict_total_tie Z.ltb (startKey c) (startKey d) Z_ltb_strict_total).
  rewrite (float_lt_tie (rateKey c) (rateKey d)).
  unfold stationKey, locationKey, componentKey, channelKey, startKey, rateKey. tauto.
Qed.

Lemma Less_tie_iff_witness :
  Collection.Less
    (@directEmitted insertionSorter tieSet tieRecorder tieStream tieSpan
       tieComponent0 tieChannel)
    (@directEmitted insertionSorter tieSet tieRecorder tieStream tieSpan
       tieComponent1 tieChannel) = false
  /\ Collection.Less
       (@directEmitted insertionSorter tieSet tieRecorder tieStream tieSpan
          tieComponent1 tieChannel)
       (@directEmitted insertionSorter tieSet tieRecorder tieStream tieSpan
          tieComponent0 tieChannel) = false.
Proof.
  apply (Less_tie_iff insertionSorter tieSet tieSite).
  - vm_compute. tauto.
  - vm_compute. tauto.
  - repeat split; reflexivity.
Defined.

Lemma ordered_pairs {A : Type} (less : A -> A -> bool) (l : list A) :
  strict_weak less -> ordered less l ->
  forall i j x y, (i < j)%nat -> nth_error l i = Some x -> nth_error l j = Some y ->
    less y x = false.
Proof.
  intros (_ & _ & Hneg) Hs.
  assert (Hss : StronglySorted (fun x y => less y x = false) l).
  { apply Sorted_StronglySorted; [|exact Hs].
    intros x y z Hxy Hyz. exact (Hneg z y x Hyz Hxy). }
  clear Hs. induction Hss as [|a l Hss IH Hall]; intros i j x y Hlt Hi Hj.
  - destruct i; discriminate.
  - destruct j as [|j]; [lia|]. simpl in Hj. destruct i as [|i]; simpl in Hi.
    + injection Hi as <-. rewrite Forall_forall in Hall. apply Hall.
      apply nth_error_In with j. exact Hj.
    + apply (IH i j); [lia | exact Hi | exact Hj].
Qed.

Lemma Collections_site_keys {sorter : SliceSorter} (s : MetaSet.t) (site : Site.t)
    (c : Collection.t) :
  In c (Collections s site) ->
  stationKey c = Site.Station site /\ locationKey c = Site.Location site.
Proof.
  intros H. apply Collections_inv in H.
  destruct H as [(r & st & sp & co & ch & M & ->)
                |(n & se & d & st & sp & co & ch & M & ->)].
  - destruct M as ((_ & C1 & C2) & _). split; assumption.
  - destruct M as (_ & (_ & C1 & C2) & _). split; assumption.
Qed.

(** X9. In the result of [Collections] the component numbers never descend:
    of two Collections the later one has a component number at least as large;
    when they are equal its channel number is at least as large; when those
    are equal too its Span starts no earlier; and when the starts are equal
    its sampling rate is no larger.  (The station and the location, the first
    keys of [Less], are those of the site in every Collection.) *)
Theorem Collections_numbers_ascend (sorter : SliceSorter) (s : MetaSet.t) (site : Site.t)
    (i j : nat) (earlier later : Collection.t) :
  (i < j)%nat ->
  nth_error (Collections s site) i = Some earlier ->
  nth_error (Collections s site) j = Some later ->
  Component.Number (Collection.Component earlier)
  <= Component.Number (Collection.Component later)
  /\ (Component.Number (Collection.Component earlier)
      = Component.Number (Collection.Component later) ->
      Channel.Number (Collection.Channel earlier)
      <= Channel.Number (Collection.Channel later)
      /\ (Channel.Number (Collection.Channel earlier)
          = Channel.Number (Collection.Channel later) ->
          Span.Start (Collection.Span earlier) <= Span.Start (Collection.Span later)
          /\ (Span.Start (Collection.Span earlier) = Span.Start (Collection.Span later) ->
              (Stream.SamplingRate (Collection.Stream later)
               <= Stream.SamplingRate (Collection.Stream earlier))%Q))).
Proof.
  intros Hlt Hi Hj.
  assert (L : Collection.Less later earlier = false).
  { apply (ordered_pairs Collection.Less (Collections s site) Less_strict_weak)
      with (i := i) (j := j); try assumption.
    apply sortSlice_ordered. exact Less_strict_weak. }
  destruct (Collections_site_keys s site earlier (nth_error_In _ _ Hi)) as [S1 L1].
  destruct (Collections_site_keys s site later (nth_error_In _ _ Hj)) as [S2 L2].
  unfold stationKey, locationKey in *.
  destruct String_ltb_strict_total as (Sirr & _).
  unfold Collection.Less, Before, After in L.
  rewrite S1, S2, L1, L2, !Sirr in L.
  destruct (Component.Number (Collection.Component later)
            <? Component.Number (Collection.Component earlier)) eqn:E1;
    [discriminate|].
  apply Z.ltb_ge in E1. split; [exact E1|]. intros Q1.
  rewrite Q1, Z.ltb_irrefl in L.
  destruct (Channel.Number (Collection.Channel later)
            <? Channel.Number (Collection.Channel earlier)) eqn:E2;
    [discriminate|].
  apply Z.ltb_ge in E2. split; [exact E2|]. intros Q2.
  rewrite Q2, Z.ltb_irrefl in L.
  destruct (Span.Start (Collection.Span later) <? Span.Start (Collection.Span earlier))
    eqn:E3; [discriminate|].
  apply Z.ltb_ge in E3. split; [exact E3|]. intros Q3.
  rewrite Q3, Z.ltb_irrefl in L.
  destruct (float_lt (Stream.SamplingRate (Collection.Stream earlier))
              (Stream.SamplingRate (Collection.Stream later))) eqn:E4;
    [discriminate|].
  apply float_lt_false_iff in E4. exact E4.
Qed.

Lemma Collections_numbers_ascend_witness :
  Component.Number tieComponent6 <= Component.Number tieComponent0.
Proof.
  refine (proj1 (Collections_numbers_ascend insertionSorter tieSet tieSite 0 1
                   (@directEmitted insertionSorter tieSet tieRecorder tieStream tieSpan
                      tieComponent6 tieChannel)
                   (@directEmitted insertionSorter tieSet tieRecorder tieStream tieSpan
                      tieComponent0 tieChannel) _ _ _)).
  - lia.
  - vm_compute. reflexivity.
  - vm_compute. reflexivity.
Defined.

(** ** How many Collections *)

Lemma length_flat_map_if {A B : Type} (f : A -> bool) (g : A -> list B) (l : list A)
    (k : nat) :
  (forall x, List.length (g x) <= k)%nat ->
  (List.length (flat_map (fun x => if f x then g x else []) l) <= List.length l * k)%nat.
Proof.
  intros H. induction l as [|x l IH]; simpl; [lia|].
  rewrite List.length_app. specialize (H x).
  destruct (f x); simpl; lia.
Qed.

Lemma length_extent {B : Type} (e : Span.t * bool) (g : Span.t -> list B) (k : nat) :
  (forall span, List.length (g span) <= k)%nat ->
  (List.length (let (span, ok) := e in if ok then g span else []) <= k)%nat.
Proof.
  intros H. destruct e as [span [|]]; [apply H | simpl; lia].
Qed.

Section Count.

Context {sorter : SliceSorter}.
Variables (s : MetaSet.t) (site : Site.t).

Let streams := List.length (MetaSet.Streams s).
Let components := List.length (MetaSet.Components s).
Let channels := List.length (MetaSet.Channels s).

Lemma length_directChannels recorder stream span component gains sensors :
  (List.length (directChannels s recorder stream span component gains sensors)
   <= channels)%nat.
Proof.
  unfold directChannels.
  eapply Nat.le_trans; [apply length_flat_map_if with (k := 1%nat)|]; [|fold channels; lia].
  intros channel. simpl. lia.
Qed.

Lemma length_directComponents recorder stream span :
  (List.length (directComponents s recorder stream span) <= components * channels)%nat.
Proof.
  unfold directComponents. apply length_flat_map_if.
  intros component. apply length_directChannels.
Qed.

Lemma length_directCollections :
  (List.length (directCollections s site)
   <= List.length (MetaSet.InstalledRecorders s) * (streams * (components * channels)))%nat.
Proof.
  unfold directCollections. apply length_flat_map_if. intros recorder.
  unfold directStreams. apply length_flat_map_if. intros stream.
  apply length_extent. intros span. apply length_directComponents.
Qed.

Lemma length_connectionChannels connection sensor datalogger stream span component
    gains sensors :
  (List.length (connectionChannels s connection sensor datalogger stream span component
                  gains sensors) <= channels)%nat.
Proof.
  unfold connectionChannels.
  eapply Nat.le_trans; [apply length_flat_map_if with (k := 1%nat)|]; [|fold channels; lia].
  intros channel. simpl. lia.
Qed.

Lemma length_connectionCollections :
  (List.length (connectionCollections s site)
   <= List.length (MetaSet.Connections s)
      * (List.length (MetaSet.InstalledSensors s)
         * (List.length (MetaSet.DeployedDataloggers s)
            * (streams * (components * channels)))))%nat.
Proof.
  unfold connectionCollections. apply length_flat_map_if. intros connection.
  unfold connectionSensors. apply length_flat_map_if. intros sensor.
  unfold connectionDataloggers. apply length_flat_map_if. intros datalogger.
  apply length_extent. intros span0.
  unfold connectionStreams. apply length_flat_map_if. intros stream.
  apply length_extent. intros span.
  unfold connectionComponents. apply length_flat_map_if. intros component.
  apply length_connectionChannels.
Qed.

End Count.

(** X10. [Collections] returns at most as many Collections as the registry
    has combinations of a recorder, a stream, a component and a channel and of
    a connection, a sensor, a datalogger, a stream, a component and a channel:
    each loop appends at most one Collection for a combination. *)
Theorem Collections_at_most (sorter : SliceSorter) (s : MetaSet.t) (site : Site.t) :
  (List.length (Collections s site)
   <= (List.length (MetaSet.InstalledRecorders s)
       + List.length (MetaSet.Connections s)
         * List.length (MetaSet.InstalledSensors s)
         * List.length (MetaSet.DeployedDataloggers s))
      * List.length (MetaSet.Streams s)
      * List.length (MetaSet.Components s)
      * List.length (MetaSet.Channels s))%nat.
Proof.
  unfold Collections.
  rewrite <- (Permutation_length (sortSlice_Permutation _ Collection.Less (built s site))).
  unfold built. rewrite List.length_app.
  pose proof (length_directCollections s site) as D.
  pose proof (length_connectionCollections s site) as C.
  cbv zeta in D, C. nia.
Qed.

(** ** The shape of the codes *)

Lemma string_length_append (a b : string) :
  String.length (a ++ b) = (String.length a + String.length b)%nat.
Proof.
  induction a as [|x a IH]; simpl; [reflexivity|]. rewrite IH. reflexivity.
Qed.

(** X13. [Subsource] returns Component.Subsource, "1" or "2", of the length of
    Component.Subsource in every case, so that the length of [Code] is that of
    Stream.Band, Stream.Source and Component.Subsource together; for an axial
    stream it never returns "N", "n", "E" or "e". *)
Theorem Subsource_shape (c : Collection.t) :
  (Collection.Subsource c = Component.Subsource (Collection.Component c)
   \/ Collection.Subsource c = "1"%string \/ Collection.Subsource c = "2"%string)
  /\ String.length (Collection.Subsource c)
     = String.length (Component.Subsource (Collection.Component c))
  /\ String.length (Collection.Code c)
     = (String.length (Stream.Band (Collection.Stream c))
        + String.length (Stream.Source (Collection.Stream c))
        + String.length (Component.Subsource (Collection.Component c)))%nat
  /\ (Collection.axial c = true ->
      Collection.Subsource c <> "N"%string /\ Collection.Subsource c <> "n"%string
      /\ Collection.Subsource c <> "E"%string /\ Collection.Subsource c <> "e"%string).
Proof.
  assert (L : String.length (Collection.Subsource c)
              = String.length (Component.Subsource (Collection.Component c))).
  { unfold Collection.Subsource. destruct (Collection.axial c); [|reflexivity].
    destruct (String.eqb_spec (ToUpper (Component.Subsource (Collection.Component c))) "N")
      as [E|_]; [apply ToUpper_N in E; destruct E as [->| ->]; reflexivity|].
    destruct (String.eqb_spec (ToUpper (Component.Subsource (Collection.Component c))) "E")
      as [E|_]; [apply ToUpper_E in E; destruct E as [->| ->]; reflexivity|].
    reflexivity. }
  split; [|split; [exact L|split]].
  - unfold Collection.Subsource. destruct (Collection.axial c); [|auto].
    destruct (String.eqb _ "N"); [auto|]. destruct (String.eqb _ "E"); auto.
  - unfold Collection.Code. rewrite !string_length_append, L. lia.
  - intros A. unfold Collection.Subsource. rewrite A.
    destruct (String.eqb_spec (ToUpper (Component.Subsource (Collection.Component c))) "N")
      as [_|EN]; [repeat split; discriminate|].
    destruct (String.eqb_spec (ToUpper (Component.Subsource (Collection.Component c))) "E")
      as [_|EE]; [repeat split; discriminate|].
    rewrite ToUpper_N in EN. rewrite ToUpper_E in EE. tauto.
Qed.
